(** * TaskFlex: the handlers of [app.py] over an explicit store

    The Flask application of [src/app.py] keeps two tables, [User] and
    [Task], behind SQLAlchemy and exposes six routes.  Each route handler is
    embedded here as a function from the store and the request to a response
    and the store after the request.

    - A request body ([request.get_json()]) is a Python [dict] from strings
      to JSON scalars: a [gmap string json].  The scalars are null, the
      booleans, the integers and the strings; a string is the UTF-8 text
      that the database driver is given.
    - A table is the list of its rows in insertion order.  The database is
      the SQLite file of line 19.  A row holds what the database stores and
      gives back: a [String] column holds a text or NULL, the [Boolean]
      column a boolean or NULL, an [Integer] column an integer.  A value
      that reaches a column or a query is converted as its type and SQLite's
      column affinity say, or it is refused: the statement raises.
    - [db.session.commit()] also checks what the model classes declare:
      [nullable=False], [unique=True], [default=...] and the generated
      primary key.
    - An exception that a handler does not catch makes Flask answer 500; the
      session is rolled back, so the store is the one before the request.
    - [generate_password_hash] draws a random salt: the salt is an explicit
      argument of [register]. *)

From Stdlib Require Import ZArith Ascii.
From stdpp Require Import gmap strings list fin_maps pretty.

Local Open Scope Z_scope.

(** ** JSON scalars and Python dictionaries *)

Inductive json : Type :=
  | JNull
  | JBool (b : bool)
  | JNum (n : Z)
  | JStr (s : string).

#[global] Instance json_eq_dec : EqDecision json.
Proof. solve_decision. Defined.

(** Python truth value of a decoded JSON scalar: [None], [False], [0] and
    [''] are false. *)
Definition truthy (v : json) : bool :=
  match v with
  | JNull => false
  | JBool b => b
  | JNum n => negb (n =? 0)
  | JStr s => negb (String.eqb s "")
  end.

(** [data.get(key)] and [data.get(key, d)]. *)
Definition dict_get (data : gmap string json) (key : string) : json :=
  default JNull (data !! key).

Definition dict_get_default (data : gmap string json) (key : string) (d : json) : json :=
  default d (data !! key).

(** [key in data]. *)
Definition dict_in (key : string) (data : gmap string json) : bool :=
  bool_decide (is_Some (data !! key)).

(** ** The model classes *)

Module User.
Record User : Type := mk {
  id : Z;
  username : json;
  email : json;
  password_hash : string
}.

#[global] Instance eq_dec : EqDecision User.
Proof. solve_decision. Defined.
End User.

Module Task.
Record Task : Type := mk {
  id : Z;
  title : json;
  description : json;
  due_date : json;
  priority : json;
  completed : json;
  user_id : json
}.

#[global] Instance eq_dec : EqDecision Task.
Proof. solve_decision. Defined.

Definition to_dict (self : Task) : gmap string json :=
  <["id" := JNum (id self)]>
  (<["title" := title self]>
  (<["description" := description self]>
  (<["dueDate" := due_date self]>
  (<["priority" := priority self]>
  (<["completed" := completed self]>
  (<["userId" := user_id self]> ∅)))))).
End Task.

(** ** The store *)

Record store : Type := mk_store {
  users : list User.User;
  tasks : list Task.Task
}.

Definition empty_store : store := {| users := []; tasks := [] |}.

(** ** What the database does with a value

    A function returns [None] when the statement that carries the value
    raises. *)

(** The integers that SQLite holds: a Python [int] outside this range makes
    [sqlite3] raise [OverflowError] when the parameter is bound. *)
Definition in_int64 (n : Z) : bool := (- 2 ^ 63 <=? n) && (n <? 2 ^ 63).

(** A parameter for a [db.String] column, in an INSERT, an UPDATE or a
    comparison with the column.  The column has TEXT affinity: an integer
    becomes its decimal text, and a boolean is bound as the integer 1 or
    0. *)
Definition to_text (v : json) : option json :=
  match v with
  | JNull => Some JNull
  | JBool b => Some (JStr (if b then "1" else "0"))
  | JNum n => if in_int64 n then Some (JStr (pretty n)) else None
  | JStr s => Some (JStr s)
  end.

(** A parameter for the [db.Boolean] column: SQLAlchemy accepts [None],
    [True], [False], and [1] and [0], which are equal to them, and raises
    for every other value; the column gives back a boolean. *)
Definition to_boolean (v : json) : option json :=
  match v with
  | JNull => Some JNull
  | JBool b => Some (JBool b)
  | JNum 0 => Some (JBool false)
  | JNum 1 => Some (JBool true)
  | _ => None
  end.

(** The texts and the booleans, with NULL where the column allows it. *)
Definition is_text (v : json) : Prop := ∃ s, v = JStr s.
Definition is_text_or_null (v : json) : Prop := v = JNull ∨ is_text v.
Definition is_boolean_or_null (v : json) : Prop := v = JNull ∨ ∃ b, v = JBool b.

(** An integer primary key left to the store: one more than the largest key
    of the table (the rowid rule of SQLite), [1] in an empty table. *)
Definition next_id (ids : list Z) : Z := 1 + foldr Z.max 0 ids.

(** ** Scanning a table *)

(** The first row of [User] with this identifier. *)
Definition user_get (st : store) (user_id : Z) : option User.User :=
  find (λ u, bool_decide (User.id u = user_id)) (users st).

(** The first row of [User] with this stored username. *)
Definition user_by_username (st : store) (username : json) : option User.User :=
  find (λ u, bool_decide (User.username u = username)) (users st).

(** The first row of [User] with this stored email. *)
Definition user_by_email (st : store) (email : json) : option User.User :=
  find (λ u, bool_decide (User.email u = email)) (users st).

(** The first row of [Task] with this identifier. *)
Definition task_get (st : store) (task_id : Z) : option Task.Task :=
  find (λ t, bool_decide (Task.id t = task_id)) (tasks st).

(** [Task.query.filter_by(user_id=user_id).all()], for an identifier that
    SQLite holds. *)
Definition tasks_of_user (st : store) (user_id : Z) : list Task.Task :=
  filter (λ t, Task.user_id t = JNum user_id) (tasks st).

(** ** Queries and commits

    The outer [None] is an exception; [Some None] is the [None] of
    [first()] and [get()]. *)

(** [User.query.get(user_id)] with the integer of the route. *)
Definition user_query_get (st : store) (user_id : Z) : option (option User.User) :=
  if in_int64 user_id then Some (user_get st user_id) else None.

(** [Task.query.get(task_id)] with the integer of the route. *)
Definition task_query_get (st : store) (task_id : Z) : option (option Task.Task) :=
  if in_int64 task_id then Some (task_get st task_id) else None.

(** [User.query.filter_by(username=username).first()]: the parameter is
    compared as a text; [username=None] is [IS NULL]. *)
Definition user_query_by_username (st : store) (username : json)
  : option (option User.User) :=
  user_by_username st <$> to_text username.

(** [User.query.filter_by(email=email).first()] *)
Definition user_query_by_email (st : store) (email : json)
  : option (option User.User) :=
  user_by_email st <$> to_text email.

(** [db.session.add(new_user); db.session.commit()].  [username] and
    [email] are stored as texts; they are [nullable=False] and
    [unique=True].  The key is generated; SQLite has no key to give after
    the largest 64-bit integer (it then tries keys at random, which is not
    modelled: the row is refused). *)
Definition insert_user (st : store) (username email : json) (password_hash : string)
  : option store :=
  match to_text username, to_text email with
  | Some username, Some email =>
      if bool_decide (username = JNull) || bool_decide (email = JNull) then None
      else if bool_decide (username ∈ User.username <$> users st)
              || bool_decide (email ∈ User.email <$> users st) then None
      else
        let new_id := next_id (User.id <$> users st) in
        if in_int64 new_id then
          Some {| users := users st ++ [User.mk new_id username email password_hash];
                  tasks := tasks st |}
        else None
  | _, _ => None
  end.

(** [db.session.add(new_task); db.session.commit()] for the [Task] built in
    [add_task]; [user_id] is the integer that [data['userId']] denotes.
    [title], [description], [due_date] and [priority] are stored as texts;
    [title] is [nullable=False].  An attribute that is [None] counts as
    never assigned and is left out of the INSERT, so a column that declares
    a default gets it: [priority] gets ['medium'], and [completed], which
    [add_task] never sets, gets [False].  The result is the row as stored
    (the commit expires the object and [to_dict] reads the row back). *)
Definition insert_task (st : store) (title description due_date priority : json)
    (user_id : Z) : option (Task.Task * store) :=
  match to_text title, to_text description, to_text due_date, to_text priority with
  | Some title, Some description, Some due_date, Some priority =>
      if bool_decide (title = JNull) then None
      else
        let new_id := next_id (Task.id <$> tasks st) in
        if in_int64 new_id then
          let row :=
            Task.mk new_id title description due_date
                    (if bool_decide (priority = JNull) then JStr "medium" else priority)
                    (JBool false) (JNum user_id) in
          Some (row, {| users := users st; tasks := tasks st ++ [row] |})
        else None
  | _, _, _, _ => None
  end.

(** [task.x = data.get('x', task.x)] as the UPDATE sees it: a key of the
    body gives the column its value, converted as the column says; without
    the key the column is not written. *)
Definition column_write (convert : json → option json) (data : gmap string json)
    (key : string) (old : json) : option json :=
  match data !! key with
  | Some v => convert v
  | None => Some old
  end.


(** The row that the commit writes for these assignments, as the database
    gives it back; [None] when a value is refused. *)
Definition update_row (task : Task.Task) (data : gmap string json) : option Task.Task :=
  title ← column_write to_text data "title" (Task.title task);
  description ← column_write to_text data "description" (Task.description task);
  due_date ← column_write to_text data "dueDate" (Task.due_date task);
  priority ← column_write to_text data "priority" (Task.priority task);
  completed ← column_write to_boolean data "completed" (Task.completed task);
  Some (Task.mk (Task.id task) title description due_date priority completed
                (Task.user_id task)).

(** [db.session.commit()] in [update_task], for the row that [update_row]
    gives: the row with the task's key is rewritten.  An UPDATE writes
    [None] as NULL, which [title] does not accept. *)
Definition commit_task (st : store) (task : Task.Task) : option store :=
  if bool_decide (Task.title task = JNull) || bool_decide (Task.user_id task = JNull)
  then None
  else
    Some {| users := users st;
            tasks := (λ t, if bool_decide (Task.id t = Task.id task) then task else t)
                       <$> tasks st |}.

(** [db.session.delete(task); db.session.commit()] *)
Definition remove_task (st : store) (task : Task.Task) : store :=
  {| users := users st;
     tasks := filter (λ t, Task.id t ≠ Task.id task) (tasks st) |}.

(** ** Responses *)

(** What [jsonify] is given, or the error page of an unhandled exception. *)
Inductive payload : Type :=
  | Message (message : string)
  | LoginOk (message : string) (userId : Z) (username : json)
  | TaskObject (task : gmap string json)
  | TaskArray (tasks : list (gmap string json))
  | InternalServerError.

Definition response : Type := payload * Z.

Definition server_error : response := (InternalServerError, 500).

(** ** The route handlers *)

Section Handlers.

(** [werkzeug.security]: [generate_password_hash] with its salt made
    explicit, and [check_password_hash pwhash password]; both raise when
    the password is not a [str]. *)
Variable generate_password_hash : string → string → string.
Variable check_password_hash : string → string → bool.

(** The integer that SQLite reads in a text that is compared with, or stored
    in, an integer column, [None] for a text that is not a number. *)
Variable text_as_integer : string → option Z.

(** The integer that a value of the body denotes as a key: [None] inside for
    a value that is the key of no row, [None] outside when binding it
    raises.  A boolean is bound as 1 or 0. *)
Definition to_integer (v : json) : option (option Z) :=
  match v with
  | JNull => Some None
  | JBool b => Some (Some (Z.b2z b))
  | JNum n => if in_int64 n then Some (Some n) else None
  | JStr s => Some (text_as_integer s)
  end.

(** [POST /api/register] *)
Definition register (st : store) (salt : string) (data : gmap string json)
  : response * store :=
  let username := dict_get data "username" in
  let email := dict_get data "email" in
  let password := dict_get data "password" in
  if negb (truthy username) || negb (truthy email) || negb (truthy password) then
    ((Message "Faltam dados obrigatórios", 400), st)
  else
    match user_query_by_username st username with
    | None => (server_error, st)
    | Some (Some _) => ((Message "Usuário ou e-mail já existe", 409), st)
    | Some None =>
        match user_query_by_email st email with
        | None => (server_error, st)
        | Some (Some _) => ((Message "Usuário ou e-mail já existe", 409), st)
        | Some None =>
            match password with
            | JStr p =>
                match insert_user st username email (generate_password_hash salt p) with
                | Some st' => ((Message "Usuário criado com sucesso", 201), st')
                | None => (server_error, st)
                end
            | _ => (server_error, st)
            end
        end
    end.

(** [POST /api/login] *)
Definition login (st : store) (data : gmap string json) : response :=
  let username := dict_get data "username" in
  let password := dict_get data "password" in
  match user_query_by_username st username with
  | None => server_error
  | Some (Some user) =>
      match password with
      | JStr p =>
          if check_password_hash (User.password_hash user) p then
            (LoginOk "Login bem-sucedido" (User.id user) (User.username user), 200)
          else (Message "Credenciais inválidas", 401)
      | _ => server_error
      end
  | Some None => (Message "Credenciais inválidas", 401)
  end.

(** [GET /api/users/<int:user_id>/tasks] *)
Definition get_user_tasks (st : store) (user_id : Z) : response :=
  match user_query_get st user_id with
  | None => server_error
  | Some None => (Message "Usuário não encontrado", 404)
  | Some (Some _) => (TaskArray (Task.to_dict <$> tasks_of_user st user_id), 200)
  end.

(** [User.query.get(data['userId'])] *)
Definition user_query_get_json (st : store) (key : json) : option (option User.User) :=
  match to_integer key with
  | None => None
  | Some None => Some None
  | Some (Some user_id) => Some (user_get st user_id)
  end.

(** [POST /api/tasks] *)
Definition add_task (st : store) (data : gmap string json) : response * store :=
  if bool_decide (data = ∅) || negb (dict_in "title" data) || negb (dict_in "userId" data) then
    ((Message "Dados incompletos", 400), st)
  else
    match user_query_get_json st (dict_get data "userId") with
    | None => (server_error, st)
    | Some None => ((Message "Usuário não encontrado", 404), st)
    | Some (Some user) =>
        match insert_task st (dict_get data "title")
                (dict_get_default data "description" (JStr ""))
                (dict_get data "dueDate")
                (dict_get_default data "priority" (JStr "medium"))
                (User.id user) with
        | Some (new_task, st') => ((TaskObject (Task.to_dict new_task), 201), st')
        | None => (server_error, st)
        end
    end.

(** [PUT /api/tasks/<int:task_id>] *)
Definition update_task (st : store) (task_id : Z) (data : gmap string json)
  : response * store :=
  match task_query_get st task_id with
  | None => (server_error, st)
  | Some None => ((Message "Tarefa não encontrada", 404), st)
  | Some (Some task) =>
      match update_row task data with
      | None => (server_error, st)
      | Some row =>
          match commit_task st row with
          | Some st' => ((TaskObject (Task.to_dict row), 200), st')
          | None => (server_error, st)
          end
      end
  end.

(** [DELETE /api/tasks/<int:task_id>] *)
Definition delete_task (st : store) (task_id : Z) : response * store :=
  match task_query_get st task_id with
  | None => (server_error, st)
  | Some None => ((Message "Tarefa não encontrada", 404), st)
  | Some (Some task) =>
      ((Message "Tarefa deletada com sucesso", 200), remove_task st task)
  end.

(** ** The service as a transition system *)

Inductive request : Type :=
  | Register (salt : string) (data : gmap string json)
  | Login (data : gmap string json)
  | GetUserTasks (user_id : Z)
  | AddTask (data : gmap string json)
  | UpdateTask (task_id : Z) (data : gmap string json)
  | DeleteTask (task_id : Z).

Definition handle (st : store) (req : request) : response * store :=
  match req with
  | Register salt data => register st salt data
  | Login data => (login st data, st)
  | GetUserTasks user_id => (get_user_tasks st user_id, st)
  | AddTask data => add_task st data
  | UpdateTask task_id data => update_task st task_id data
  | DeleteTask task_id => delete_task st task_id
  end.

(** The store after a sequence of requests, oldest first. *)
Definition run (st : store) (reqs : list request) : store :=
  foldl (λ s req, (handle s req).2) st reqs.

Definition reachable (st : store) : Prop :=
  ∃ reqs, run empty_store reqs = st.

End Handlers.

(** ** The declared constraints

    What the columns of [User] and [Task] declare: primary keys,
    [unique=True] and [nullable=False]. *)
Definition store_ok (st : store) : Prop :=
  NoDup (User.id <$> users st)
  ∧ NoDup (User.username <$> users st)
  ∧ NoDup (User.email <$> users st)
  ∧ Forall (λ u, User.username u ≠ JNull ∧ User.email u ≠ JNull) (users st)
  ∧ NoDup (Task.id <$> tasks st)
  ∧ Forall (λ t, Task.title t ≠ JNull ∧ Task.user_id t ≠ JNull) (tasks st).

(** What the column types add: identifiers that SQLite holds, texts in the
    [String] columns and booleans in the [Boolean] column, with NULL where
    the column is nullable. *)
Definition user_typed (u : User.User) : Prop :=
  in_int64 (User.id u) = true ∧ is_text (User.username u) ∧ is_text (User.email u).

Definition task_typed (t : Task.Task) : Prop :=
  in_int64 (Task.id t) = true
  ∧ is_text (Task.title t)
  ∧ is_text_or_null (Task.description t)
  ∧ is_text_or_null (Task.due_date t)
  ∧ is_text_or_null (Task.priority t)
  ∧ is_boolean_or_null (Task.completed t).

Definition store_typed (st : store) : Prop :=
  Forall user_typed (users st) ∧ Forall task_typed (tasks st).


(** The foreign key of [Task.user_id] ([db.ForeignKey('user.id')]): the
    owner of a task is the identifier of a row of [User]. *)
Definition owners_exist (st : store) : Prop :=
  Forall (λ t, ∃ uid, Task.user_id t = JNum uid ∧ uid ∈ (User.id <$> users st))
         (tasks st).

(** ** The database location

    [os.environ.get('DATABASE_URL', 'sqlite:///taskflex.db')
       .replace("postgres://", "postgresql://", 1)] *)

(** [s[n:]] *)
Fixpoint string_skip (n : nat) (s : string) : string :=
  match n, s with
  | O, _ => s
  | S n', String _ s' => string_skip n' s'
  | S _, EmptyString => EmptyString
  end.

(** [s.replace(old, new, 1)]: the leftmost occurrence of [old] in [s] is
    replaced by [new]; [s] is returned as it is when [old] does not occur. *)
Fixpoint str_replace_first (old new s : string) : string :=
  if String.prefix old s then
    String.append new (string_skip (String.length old) s)
  else
    match s with
    | EmptyString => EmptyString
    | String c s' => String c (str_replace_first old new s')
    end.

(** [old in s] *)
Definition occurs (old s : string) : Prop :=
  ∃ before after, s = String.append before (String.append old after).

(** The value of [SQLALCHEMY_DATABASE_URI]; [env] is the environment
    variable [DATABASE_URL], [None] when it is not set. *)
Definition database_uri (env : option string) : string :=
  str_replace_first "postgres://" "postgresql://"
    (default "sqlite:///taskflex.db"%string env).

(** ** Sample data

    A toy hash pair, a reader of decimal digits, and small stores on which
    the handlers are evaluated. *)

Definition toy_hash (salt password : string) : string :=
  String.append (String.append password "$") salt.

Definition toy_check (pwhash password : string) : bool :=
  String.prefix (String.append password "$") pwhash.

Fixpoint digits_value (s : string) (acc : Z) : option Z :=
  match s with
  | EmptyString => Some acc
  | String c s' =>
      let d := Z.of_nat (nat_of_ascii c) - 48 in
      if (0 <=? d) && (d <=? 9) then digits_value s' (10 * acc + d) else None
  end.

Definition toy_integer (s : string) : option Z :=
  match s with
  | EmptyString => None
  | _ => digits_value s 0
  end.

Definition ana_body : gmap string json :=
  <["username" := JStr "ana"]>
  (<["email" := JStr "ana@x.com"]>
  (<["password" := JStr "pw1"]> ∅)).

(** The store after [ana] registered. *)
Definition st_ana : store :=
  (register toy_hash empty_store "s1" ana_body).2.

(** The store after [ana] registered and created the task "Buy milk". *)
Definition milk_body : gmap string json :=
  <["title" := JStr "Buy milk"]> (<["userId" := JNum 1]> ∅).

Definition st_milk : store := (add_task toy_integer st_ana milk_body).2.

(** [ana] and [bob] registered; [ana] owns "Buy milk" and "Call mum", [bob]
    owns "Pay rent". *)
Definition bob_body : gmap string json :=
  <["username" := JStr "bob"]>
  (<["email" := JStr "bob@x.com"]>
  (<["password" := JStr "pw2"]> ∅)).

Definition rent_body : gmap string json :=
  <["title" := JStr "Pay rent"]>
  (<["userId" := JNum 2]>
  (<["priority" := JStr "high"]>
  (<["dueDate" := JStr "2024-06-01"]> ∅))).

Definition mum_body : gmap string json :=
  <["title" := JStr "Call mum"]> (<["userId" := JNum 1]> ∅).

Definition two_users_requests : list request :=
  [Register "s1" ana_body; Register "s2" bob_body;
   AddTask milk_body; AddTask rent_body; AddTask mum_body].

Definition st_two : store :=
  run toy_hash toy_check toy_integer empty_store two_users_requests.

(** * Properties *)

(** ** Lookups in a table *)

Lemma find_snoc {A} (f : A → bool) (l : list A) (x : A) :
  find f (l ++ [x]) =
  match find f l with
  | Some y => Some y
  | None => if f x then Some x else None
  end.
Proof.
  induction l as [|a l IH]; simpl; [done|].
  destruct (f a); [done|]. apply IH.
Qed.

Lemma find_app_Some {A} (f : A → bool) (l k : list A) (x : A) :
  find f l = Some x → find f (l ++ k) = Some x.
Proof.
  induction l as [|a l IH]; simpl; [done|]. by destruct (f a).
Qed.

Lemma find_None_Forall {A} (f : A → bool) (l : list A) :
  find f l = None ↔ Forall (λ x, f x = false) l.
Proof.
  induction l as [|a l IH]; simpl.
  - split; [constructor | done].
  - destruct (f a) eqn:Hfa.
    + split; [done|]. intros H. inversion H; congruence.
    + rewrite IH. split; [by constructor | by inversion 1].
Qed.

Lemma find_Some_elem {A} (f : A → bool) (l : list A) (x : A) :
  find f l = Some x → x ∈ l ∧ f x = true.
Proof.
  induction l as [|a l IH]; simpl; [done|].
  destruct (f a) eqn:Hfa.
  - intros [= <-]. split; [left | done].
  - intros H. destruct (IH H). split; [by right | done].
Qed.

Lemma user_by_username_None st v :
  user_by_username st v = None ↔ v ∉ (User.username <$> users st).
Proof.
  unfold user_by_username. rewrite find_None_Forall, Forall_forall.
  rewrite list_elem_of_fmap. split.
  - intros H (u & -> & Hu). apply H in Hu.
    by apply bool_decide_eq_false in Hu.
  - intros H u Hu. apply bool_decide_eq_false. intros <-.
    apply H. by exists u.
Qed.

Lemma user_by_email_None st v :
  user_by_email st v = None ↔ v ∉ (User.email <$> users st).
Proof.
  unfold user_by_email. rewrite find_None_Forall, Forall_forall.
  rewrite list_elem_of_fmap. split.
  - intros H (u & -> & Hu). apply H in Hu.
    by apply bool_decide_eq_false in Hu.
  - intros H u Hu. apply bool_decide_eq_false. intros <-.
    apply H. by exists u.
Qed.

Lemma next_id_above (ids : list Z) x : x ∈ ids → x < next_id ids.
Proof.
  unfold next_id. induction 1 as [x l|x y l _ IH]; simpl; lia.
Qed.

Lemma next_id_fresh (ids : list Z) : next_id ids ∉ ids.
Proof. intros H. apply next_id_above in H. lia. Qed.

Lemma truthy_empty_string : truthy (JStr "") = false.
Proof. reflexivity. Qed.

Lemma dict_get_lookup data key v : data !! key = Some v → dict_get data key = v.
Proof. unfold dict_get. by intros ->. Qed.

(** ** Conversions *)


Lemma to_text_text_or_null v : is_text_or_null v → to_text v = Some v.
Proof. intros [->|[s ->]]; done. Qed.

Lemma to_boolean_boolean_or_null v : is_boolean_or_null v → to_boolean v = Some v.
Proof. intros [->|[b ->]]; done. Qed.

Lemma to_text_result v t : to_text v = Some t → is_text_or_null t.
Proof.
  destruct v as [|b|n|s]; simpl.
  - intros [= <-]. by left.
  - intros [= <-]. right. by eexists.
  - destruct (in_int64 n); [|done]. intros [= <-]. right. by eexists.
  - intros [= <-]. right. by eexists.
Qed.

Lemma to_text_truthy v t : truthy v = true → to_text v = Some t → is_text t.
Proof.
  intros Hv Ht. destruct (to_text_result v t Ht) as [->|]; [|done].
  destruct v as [|b|n|s]; simpl in *; try done.
  by destruct (in_int64 n).
Qed.

Lemma to_text_idemp v t : to_text v = Some t → to_text t = Some t.
Proof. intros Ht. by apply to_text_text_or_null, (to_text_result v). Qed.

Lemma to_boolean_result v b : to_boolean v = Some b → is_boolean_or_null b.
Proof.
  destruct v as [|c|n|s]; simpl; try done.
  - intros [= <-]. by left.
  - intros [= <-]. right. by eexists.
  - destruct n as [|[| |]|]; try done; intros [= <-]; right; by eexists.
Qed.

Lemma to_boolean_idemp v b : to_boolean v = Some b → to_boolean b = Some b.
Proof. intros Hb. by apply to_boolean_boolean_or_null, (to_boolean_result v). Qed.


(** ** Registration *)

Section Registration.
Variable generate_password_hash : string → string → string.

(** The answers of [register]: the store is the one before the request
    unless the answer is 201. *)
Lemma register_cases st salt data :
  let username := dict_get data "username" in
  let email := dict_get data "email" in
  (∃ r, register generate_password_hash st salt data = (r, st)
        ∧ r.2 ∈ [400; 409; 500])
  ∨ (∃ p uname mail,
        dict_get data "password" = JStr p
        ∧ truthy username = true ∧ truthy email = true
        ∧ to_text username = Some (JStr uname)
        ∧ to_text email = Some (JStr mail)
        ∧ (JStr uname ∉ (User.username <$> users st))
        ∧ (JStr mail ∉ (User.email <$> users st))
        ∧ in_int64 (next_id (User.id <$> users st)) = true
        ∧ register generate_password_hash st salt data
          = ((Message "Usuário criado com sucesso", 201),
             {| users := users st ++
                  [User.mk (next_id (User.id <$> users st)) (JStr uname) (JStr mail)
                     (generate_password_hash salt p)];
                tasks := tasks st |})).
Proof.
  intros username email. unfold register. fold username email.
  destruct (truthy username) eqn:Hu; simpl;
    [|left; eexists; split; [done|set_solver]].
  destruct (truthy email) eqn:He; simpl;
    [|left; eexists; split; [done|set_solver]].
  destruct (truthy (dict_get data "password")) eqn:Hp; simpl;
    [|left; eexists; split; [done|set_solver]].
  unfold user_query_by_username, user_query_by_email.
  destruct (to_text username) as [tu|] eqn:Htu; simpl;
    [|left; eexists; split; [done|set_solver]].
  destruct (user_by_username st tu) as [u|] eqn:Hfu;
    [left; eexists; split; [done|set_solver]|].
  destruct (to_text email) as [te|] eqn:Hte; simpl;
    [|left; eexists; split; [done|set_solver]].
  destruct (user_by_email st te) as [u|] eqn:Hfe;
    [left; eexists; split; [done|set_solver]|].
  apply user_by_username_None in Hfu. apply user_by_email_None in Hfe.
  destruct (to_text_truthy _ _ Hu Htu) as [uname ->].
  destruct (to_text_truthy _ _ He Hte) as [mail ->].
  destruct (dict_get data "password") as [| | |p] eqn:Hpw;
    try (left; eexists; split; [done|set_solver]).
  unfold insert_user. rewrite Htu, Hte. simpl.
  rewrite (bool_decide_eq_false_2 _ Hfu), (bool_decide_eq_false_2 _ Hfe). simpl.
  destruct (in_int64 (next_id (User.id <$> users st))) eqn:Hkey;
    [|left; eexists; split; [done|set_solver]].
  right. by exists p, uname, mail.
Qed.

(** C9: a registration whose [username], [email] or [password] is the empty
    string is answered 400 with the missing-fields message, and the store is
    the one before the request. *)
Theorem register_empty_string_rejected st salt (data : gmap string json) :
  data !! "username" = Some (JStr "")
  ∨ data !! "email" = Some (JStr "")
  ∨ data !! "password" = Some (JStr "") →
  register generate_password_hash st salt data
  = ((Message "Faltam dados obrigatórios", 400), st).
Proof.
  intros H. unfold register.
  destruct H as [H|[H|H]]; rewrite (dict_get_lookup _ _ _ H), truthy_empty_string; simpl.
  - done.
  - by rewrite orb_true_r.
  - by rewrite orb_true_r.
Qed.


End Registration.

Lemma register_empty_string_rejected_witness :
  register toy_hash st_ana "s2" (<["password" := JStr ""]> ana_body)
  = ((Message "Faltam dados obrigatórios", 400), st_ana).
Proof.
  apply (register_empty_string_rejected toy_hash st_ana "s2").
  right; right. reflexivity.
Defined.




Lemma register_failure_status (status : Z) :
  status ∈ [400; 409; 500] → status ∈ [400; 409; 500; 201] ∧ status ≠ 201.
Proof. rewrite !elem_of_cons, !elem_of_nil. lia. Qed.

Lemma add_task_failure_status (status : Z) :
  status ∈ [400; 404; 500] → status ∈ [400; 404; 500; 201] ∧ status ≠ 201.
Proof. rewrite !elem_of_cons, !elem_of_nil. lia. Qed.

Lemma update_task_failure_status (status : Z) :
  status ∈ [404; 500] → status ∈ [404; 500; 200] ∧ status ≠ 200.
Proof. rewrite !elem_of_cons, !elem_of_nil. lia. Qed.

(** ** Login *)

Section Login.
Variable generate_password_hash : string → string → string.
Variable check_password_hash : string → string → bool.



End Login.



Lemma prefix_append (a b : string) : String.prefix a (String.append a b) = true.
Proof.
  induction a as [|c a IH]; simpl; [by destruct b|].
  destruct (Ascii.ascii_dec c c); [apply IH | done].
Qed.



(** ** The answers of the task handlers *)

Lemma dict_in_lookup (data : gmap string json) key v :
  data !! key = Some v → dict_in key data = true.
Proof. intros H. unfold dict_in. apply bool_decide_eq_true_2. eauto. Qed.

Lemma lookup_Some_nonempty (data : gmap string json) key v :
  data !! key = Some v → bool_decide (data = ∅) = false.
Proof.
  intros H. apply bool_decide_eq_false_2. intros ->.
  by rewrite lookup_empty in H.
Qed.

Lemma dict_in_None (data : gmap string json) key :
  data !! key = None → dict_in key data = false.
Proof.
  intros H. unfold dict_in. apply bool_decide_eq_false_2. rewrite H. by intros [? ?].
Qed.

Lemma task_get_Some st task_id task :
  task_get st task_id = Some task → task ∈ tasks st ∧ Task.id task = task_id.
Proof.
  intros H. apply find_Some_elem in H as [Hin Hid].
  by apply bool_decide_eq_true in Hid.
Qed.

Lemma task_get_None st task_id :
  task_get st task_id = None ↔ task_id ∉ (Task.id <$> tasks st).
Proof.
  unfold task_get. rewrite find_None_Forall, Forall_forall, list_elem_of_fmap.
  split.
  - intros H (t & -> & Ht). apply H in Ht. by apply bool_decide_eq_false in Ht.
  - intros H t Ht. apply bool_decide_eq_false. intros <-. apply H. by exists t.
Qed.

Lemma user_get_Some st user_id user :
  user_get st user_id = Some user → user ∈ users st ∧ User.id user = user_id.
Proof.
  intros H. apply find_Some_elem in H as [Hin Hid].
  by apply bool_decide_eq_true in Hid.
Qed.

Lemma user_get_None st user_id :
  user_get st user_id = None ↔ user_id ∉ (User.id <$> users st).
Proof.
  unfold user_get. rewrite find_None_Forall, Forall_forall, list_elem_of_fmap.
  split.
  - intros H (u & -> & Hu). apply H in Hu. by apply bool_decide_eq_false in Hu.
  - intros H u Hu. apply bool_decide_eq_false. intros <-. apply H. by exists u.
Qed.

Lemma insert_task_inv st title description due_date priority uid row st' :
  insert_task st title description due_date priority uid = Some (row, st') →
  ∃ t d dd p,
    to_text title = Some t ∧ t ≠ JNull
    ∧ to_text description = Some d
    ∧ to_text due_date = Some dd
    ∧ to_text priority = Some p
    ∧ in_int64 (next_id (Task.id <$> tasks st)) = true
    ∧ row = Task.mk (next_id (Task.id <$> tasks st)) t d dd
              (if bool_decide (p = JNull) then JStr "medium" else p)
              (JBool false) (JNum uid)
    ∧ st' = {| users := users st; tasks := tasks st ++ [row] |}.
Proof.
  unfold insert_task.
  destruct (to_text title) as [t|]; [|done].
  destruct (to_text description) as [d|]; [|done].
  destruct (to_text due_date) as [dd|]; [|done].
  destruct (to_text priority) as [p|]; [|done].
  case_bool_decide as Ht; [done|].
  destruct (in_int64 _) eqn:Hkey; [|done].
  intros [= <- <-]. by exists t, d, dd, p.
Qed.

(** The answers of [add_task]: either the store is the one before the
    request, or one row was appended for an existing user. *)
Lemma add_task_cases text_as_integer st (data : gmap string json) :
  (∃ r, add_task text_as_integer st data = (r, st) ∧ r.2 ∈ [400; 404; 500])
  ∨ (∃ user row st',
        to_integer text_as_integer (dict_get data "userId") = Some (Some (User.id user))
        ∧ user ∈ users st
        ∧ is_Some (data !! "title")
        ∧ insert_task st (dict_get data "title")
            (dict_get_default data "description" (JStr ""))
            (dict_get data "dueDate")
            (dict_get_default data "priority" (JStr "medium"))
            (User.id user) = Some (row, st')
        ∧ add_task text_as_integer st data
          = ((TaskObject (Task.to_dict row), 201), st')).
Proof.
  unfold add_task.
  destruct (bool_decide (data = ∅) || negb (dict_in "title" data)
            || negb (dict_in "userId" data)) eqn:Hmissing.
  { left. eexists. split; [done|set_solver]. }
  apply orb_false_iff in Hmissing as [Hmissing _].
  apply orb_false_iff in Hmissing as [_ Htitle].
  apply negb_false_iff, bool_decide_eq_true in Htitle.
  unfold user_query_get_json.
  destruct (to_integer text_as_integer (dict_get data "userId")) as [[uid|]|] eqn:Hkey;
    [|left; eexists; split; [done|set_solver]..].
  destruct (user_get st uid) as [user|] eqn:Huser;
    [|left; eexists; split; [done|set_solver]].
  apply user_get_Some in Huser as [Hin <-].
  destruct (insert_task _ _ _ _ _ _) as [[row st']|] eqn:Hins;
    [|left; eexists; split; [done|set_solver]].
  right. by exists user, row, st'.
Qed.

Lemma update_row_id task data row :
  update_row task data = Some row →
  Task.id row = Task.id task ∧ Task.user_id row = Task.user_id task.
Proof.
  unfold update_row. intros H. simplify_option_eq. done.
Qed.

Lemma update_row_fields task data row :
  update_row task data = Some row ↔
    column_write to_text data "title" (Task.title task) = Some (Task.title row)
    ∧ column_write to_text data "description" (Task.description task)
      = Some (Task.description row)
    ∧ column_write to_text data "dueDate" (Task.due_date task) = Some (Task.due_date row)
    ∧ column_write to_text data "priority" (Task.priority task) = Some (Task.priority row)
    ∧ column_write to_boolean data "completed" (Task.completed task)
      = Some (Task.completed row)
    ∧ Task.id row = Task.id task
    ∧ Task.user_id row = Task.user_id task.
Proof.
  unfold update_row. split.
  - intros H. simplify_option_eq. done.
  - intros (-> & -> & -> & -> & -> & Hid & Huid). simpl.
    destruct row; simpl in *. by subst.
Qed.

(** The answers of [update_task]: either the store is the one before the
    request, or the row of the task was rewritten. *)
Lemma update_task_cases st task_id (data : gmap string json) :
  (∃ r, update_task st task_id data = (r, st) ∧ r.2 ∈ [404; 500])
  ∨ (∃ task row,
        in_int64 task_id = true
        ∧ task_get st task_id = Some task
        ∧ update_row task data = Some row
        ∧ Task.title row ≠ JNull
        ∧ Task.user_id row ≠ JNull
        ∧ update_task st task_id data
          = ((TaskObject (Task.to_dict row), 200),
             {| users := users st;
                tasks := (λ t, if bool_decide (Task.id t = Task.id row) then row else t)
                           <$> tasks st |})).
Proof.
  unfold update_task, task_query_get.
  destruct (in_int64 task_id) eqn:Hrange; [|left; eexists; split; [done|set_solver]].
  destruct (task_get st task_id) as [task|] eqn:Hget;
    [|left; eexists; split; [done|set_solver]].
  destruct (update_row task data) as [row|] eqn:Hrow;
    [|left; eexists; split; [done|set_solver]].
  unfold commit_task.
  case_bool_decide as Ht; simpl; [left; eexists; split; [done|set_solver]|].
  case_bool_decide as Hu; simpl; [left; eexists; split; [done|set_solver]|].
  right. by exists task, row.
Qed.

(** ** The constraints hold in every reachable store *)

Lemma NoDup_snoc_fresh {A} (l : list A) (x : A) : NoDup l → x ∉ l → NoDup (l ++ [x]).
Proof.
  intros Hl Hx. apply NoDup_app. split; [done|]. split.
  - intros y Hy Hin. apply list_elem_of_singleton in Hin. by subst.
  - apply NoDup_singleton.
Qed.

Lemma NoDup_fmap_filter {A B} (f : A → B) (P : A → Prop) `{∀ x, Decision (P x)}
    (l : list A) :
  NoDup (f <$> l) → NoDup (f <$> filter P l).
Proof.
  induction l as [|a l IH]; simpl; [done|].
  rewrite NoDup_cons. intros [Ha Hl]. rewrite filter_cons.
  destruct (decide (P a)); [|by apply IH].
  simpl. apply NoDup_cons. split; [|by apply IH].
  intros Hin. apply Ha. apply list_elem_of_fmap in Hin as (y & -> & Hy).
  apply list_elem_of_filter in Hy as [_ Hy]. apply list_elem_of_fmap. eauto.
Qed.

Lemma Forall_filter_keep {A} (Q P : A → Prop) `{∀ x, Decision (P x)} (l : list A) :
  Forall Q l → Forall Q (filter P l).
Proof.
  rewrite !Forall_forall. intros HQ x Hx.
  apply list_elem_of_filter in Hx as [_ Hx]. by apply HQ.
Qed.

Lemma fmap_id_replace (task : Task.Task) (l : list Task.Task) :
  Task.id <$> ((λ t, if bool_decide (Task.id t = Task.id task) then task else t) <$> l)
  = Task.id <$> l.
Proof.
  induction l as [|a l IH]; csimpl; [done|]. rewrite IH. f_equal.
  by case_bool_decide.
Qed.

Lemma insert_task_ok st title description due_date priority uid row st' :
  store_ok st →
  insert_task st title description due_date priority uid = Some (row, st') →
  store_ok st'.
Proof.
  intros (Hid & Hun & Hem & Hnn & Htid & Htnn) Hins.
  apply insert_task_inv in Hins
    as (t & d & dd & p & _ & Ht & _ & _ & _ & _ & -> & ->).
  repeat split; simpl; try done.
  - rewrite fmap_app. simpl. apply NoDup_snoc_fresh; [done | apply next_id_fresh].
  - apply Forall_app. split; [done|]. by repeat constructor.
Qed.

Lemma commit_task_ok st task st' :
  store_ok st → commit_task st task = Some st' → store_ok st'.
Proof.
  intros (Hid & Hun & Hem & Hnn & Htid & Htnn) Hc. unfold commit_task in Hc.
  destruct (bool_decide (Task.title task = JNull)) eqn:Ht; [done|].
  destruct (bool_decide (Task.user_id task = JNull)) eqn:Hu; [done|].
  simpl in Hc. injection Hc as <-.
  apply bool_decide_eq_false in Ht, Hu.
  repeat split; simpl; try done.
  - by rewrite fmap_id_replace.
  - apply Forall_fmap. eapply Forall_impl; [exact Htnn|].
    intros t Hnt. simpl. by case_bool_decide.
Qed.

Lemma remove_task_ok st task : store_ok st → store_ok (remove_task st task).
Proof.
  intros (Hid & Hun & Hem & Hnn & Htid & Htnn).
  repeat split; simpl; try done.
  - by apply NoDup_fmap_filter.
  - by apply Forall_filter_keep.
Qed.



Lemma column_write_text data key old t :
  is_text_or_null old →
  column_write to_text data key old = Some t → is_text_or_null t.
Proof.
  unfold column_write. destruct (data !! key) as [v|].
  - intros _. apply to_text_result.
  - by intros Hold [= <-].
Qed.

Lemma column_write_boolean data key old b :
  is_boolean_or_null old →
  column_write to_boolean data key old = Some b → is_boolean_or_null b.
Proof.
  unfold column_write. destruct (data !! key) as [v|].
  - intros _. apply to_boolean_result.
  - by intros Hold [= <-].
Qed.

Lemma update_row_typed task data row :
  task_typed task → update_row task data = Some row → Task.title row ≠ JNull →
  task_typed row.
Proof.
  intros (Hid & Ht & Hd & Hdd & Hp & Hc) Hrow Hnn.
  apply update_row_fields in Hrow as (Ht' & Hd' & Hdd' & Hp' & Hc' & Hid' & _).
  split; [by rewrite Hid'|]. split.
  - destruct (column_write_text _ _ _ _ (or_intror Ht) Ht'); done.
  - split; [exact (column_write_text _ _ _ _ Hd Hd')|].
    split; [exact (column_write_text _ _ _ _ Hdd Hdd')|].
    split; [exact (column_write_text _ _ _ _ Hp Hp')|].
    exact (column_write_boolean _ _ _ _ Hc Hc').
Qed.

Lemma insert_task_typed st title description due_date priority uid row st' :
  store_typed st →
  insert_task st title description due_date priority uid = Some (row, st') →
  store_typed st'.
Proof.
  intros [Husers Htasks] Hins.
  apply insert_task_inv in Hins
    as (t & d & dd & p & Ht & Hnn & Hd & Hdd & Hp & Hkey & -> & ->).
  split; [done|]. simpl. apply Forall_app. split; [done|].
  constructor; [|constructor]. split; [done|]. simpl.
  apply to_text_result in Ht as [->|Ht]; [done|].
  split; [done|]. split; [by eapply to_text_result|].
  split; [by eapply to_text_result|]. split.
  - case_bool_decide; [right; by eexists | by eapply to_text_result].
  - right. by eexists.
Qed.

Section Invariant.
Variable generate_password_hash : string → string → string.
Variable check_password_hash : string → string → bool.
Variable text_as_integer : string → option Z.

Lemma register_ok st salt data :
  store_ok st → store_ok (register generate_password_hash st salt data).2.
Proof.
  intros Hok.
  destruct (register_cases generate_password_hash st salt data)
    as [(r0 & -> & _)
       | (p & uname & mail & _ & _ & _ & _ & _ & Hfu & Hfe & _ & ->)]; [done|].
  destruct Hok as (Hid & Hun & Hem & Hnn & Htid & Htnn).
  repeat split; simpl; try done; rewrite ?fmap_app; simpl.
  - apply NoDup_snoc_fresh; [done | apply next_id_fresh].
  - by apply NoDup_snoc_fresh.
  - by apply NoDup_snoc_fresh.
  - apply Forall_app. split; [done|]. by repeat constructor.
Qed.

Lemma register_typed st salt data :
  store_typed st → store_typed (register generate_password_hash st salt data).2.
Proof.
  intros Hty.
  destruct (register_cases generate_password_hash st salt data)
    as [(r0 & -> & _)
       | (p & uname & mail & _ & _ & _ & _ & _ & _ & _ & Hkey & ->)]; [done|].
  destruct Hty as [Husers Htasks]. split; [|done]. simpl.
  apply Forall_app. split; [done|]. constructor; [|constructor].
  split; [done|]. split; by eexists.
Qed.

Lemma handle_ok st req :
  store_ok st →
  store_ok
    (handle generate_password_hash check_password_hash text_as_integer
       st req).2.
Proof.
  intros Hok. destruct req as [salt data|data|uid|data|tid data|tid]; simpl;
    try done.
  - by apply register_ok.
  - destruct (add_task_cases text_as_integer st data)
      as [(r & -> & _) | (user & row & st' & _ & _ & _ & Hins & ->)]; [done|].
    simpl. by eapply insert_task_ok.
  - destruct (update_task_cases st tid data)
      as [(r & -> & _) | (task & row & _ & _ & _ & Ht & Hu & ->)]; [done|].
    simpl. apply (commit_task_ok st row); [done|]. unfold commit_task.
    by rewrite (bool_decide_eq_false_2 _ Ht), (bool_decide_eq_false_2 _ Hu).
  - unfold delete_task, task_query_get. destruct (in_int64 tid); [|done].
    destruct (task_get st tid) as [task|]; [|done].
    simpl. by apply remove_task_ok.
Qed.

Lemma handle_typed st req :
  store_typed st →
  store_typed
    (handle generate_password_hash check_password_hash text_as_integer
       st req).2.
Proof.
  intros Hty. destruct req as [salt data|data|uid|data|tid data|tid]; simpl;
    try done.
  - by apply register_typed.
  - destruct (add_task_cases text_as_integer st data)
      as [(r & -> & _) | (user & row & st' & _ & _ & _ & Hins & ->)]; [done|].
    simpl. by eapply insert_task_typed.
  - destruct (update_task_cases st tid data)
      as [(r & -> & _) | (task & row & _ & Hget & Hrow & Ht & _ & ->)]; [done|].
    destruct Hty as [Husers Htasks]. split; [done|]. simpl.
    destruct (task_get_Some _ _ _ Hget) as [Hin _].
    pose proof (proj1 (Forall_forall _ _) Htasks task Hin) as Htask.
    apply Forall_fmap. eapply Forall_impl; [exact Htasks|].
    intros t Htt. simpl. case_bool_decide; [|done].
    exact (update_row_typed task data row Htask Hrow Ht).
  - unfold delete_task, task_query_get. destruct (in_int64 tid); [|done].
    destruct (task_get st tid) as [task|]; [|done].
    destruct Hty as [Husers Htasks]. split; [done|]. simpl.
    by apply Forall_filter_keep.
Qed.

Lemma run_ok reqs st :
  store_ok st →
  store_ok
    (run generate_password_hash check_password_hash text_as_integer
       st reqs).
Proof.
  revert st. induction reqs as [|req reqs IH]; intros st Hok; simpl; [done|].
  apply IH. by apply handle_ok.
Qed.

Lemma run_typed reqs st :
  store_typed st →
  store_typed
    (run generate_password_hash check_password_hash text_as_integer
       st reqs).
Proof.
  revert st. induction reqs as [|req reqs IH]; intros st Hty; simpl; [done|].
  apply IH. by apply handle_typed.
Qed.

Lemma empty_store_ok : store_ok empty_store.
Proof. repeat split; simpl; constructor. Qed.

Lemma empty_store_typed : store_typed empty_store.
Proof. split; constructor. Qed.

Lemma reachable_store_ok st :
  reachable generate_password_hash check_password_hash text_as_integer st → store_ok st.
Proof. intros [reqs <-]. apply run_ok, empty_store_ok. Qed.

Lemma reachable_store_typed st :
  reachable generate_password_hash check_password_hash text_as_integer st → store_typed st.
Proof. intros [reqs <-]. apply run_typed, empty_store_typed. Qed.

(** C8: in every store reachable from the empty one by requests to the six
    routes, no two users have the same username and no two users have the
    same email; the usernames and emails are the stored texts. *)
Theorem reachable_users_unique st :
  reachable generate_password_hash check_password_hash text_as_integer st →
  NoDup (User.username <$> users st)
  ∧ NoDup (User.email <$> users st)
  ∧ (∀ u, u ∈ users st → is_text (User.username u) ∧ is_text (User.email u)).
Proof.
  intros Hr. pose proof (reachable_store_typed st Hr) as [Husers _].
  apply reachable_store_ok in Hr as (_ & Hun & Hem & _).
  split; [done|]. split; [done|].
  rewrite Forall_forall in Husers. intros u Hu.
  by destruct (Husers u Hu) as (_ & ? & ?).
Qed.

(** Users are only ever added, at the end of the table. *)
Lemma handle_users_grow st req :
  ∃ more, users
    (handle generate_password_hash check_password_hash text_as_integer
       st req).2 = users st ++ more.
Proof.
  destruct req as [salt data|data|uid|data|tid data|tid]; simpl;
    try (exists []; by rewrite app_nil_r).
  - destruct (register_cases generate_password_hash st salt data)
      as [(r0 & -> & _)
         | (p & uname & mail & _ & _ & _ & _ & _ & _ & _ & _ & ->)]; simpl.
    + exists []. by rewrite app_nil_r.
    + by eexists.
  - exists []. rewrite app_nil_r.
    destruct (add_task_cases text_as_integer st data)
      as [(r & -> & _) | (user & row & st' & _ & _ & _ & Hins & ->)]; [done|].
    by apply insert_task_inv in Hins as (? & ? & ? & ? & _ & _ & _ & _ & _ & _ & _ & ->).
  - exists []. rewrite app_nil_r.
    by destruct (update_task_cases st tid data)
      as [(r & -> & _) | (task & row & _ & _ & _ & _ & _ & ->)].
  - exists []. rewrite app_nil_r. unfold delete_task, task_query_get.
    destruct (in_int64 tid); [|done]. by destruct (task_get st tid).
Qed.

Lemma run_users_grow reqs st :
  ∃ more, users
    (run generate_password_hash check_password_hash text_as_integer
       st reqs) = users st ++ more.
Proof.
  revert st. induction reqs as [|req reqs IH]; intros st; simpl.
  - exists []. by rewrite app_nil_r.
  - destruct (IH
    (handle generate_password_hash check_password_hash text_as_integer
       st req).2) as [more ->].
    destruct (handle_users_grow st req) as [more0 ->].
    exists (more0 ++ more). by rewrite app_assoc.
Qed.

(** X20: a login that is answered 200 is answered 200 again, with the same
    identifier and username, after any sequence of requests. *)
Lemma login_ok_stable st reqs (data : gmap string json) message uid uname :
  login check_password_hash st data = (LoginOk message uid uname, 200) →
  login check_password_hash
    (run generate_password_hash check_password_hash text_as_integer
       st reqs) data = (LoginOk message uid uname, 200).
Proof.
  intros Hlogin. destruct (run_users_grow reqs st) as [more Hmore].
  unfold login, user_query_by_username, user_by_username in *. rewrite Hmore.
  destruct (to_text (dict_get data "username")) as [t|]; [|done]. simpl in *.
  destruct (find _ (users st)) as [user|] eqn:Hfind; [|done].
  by rewrite (find_app_Some _ _ more _ Hfind).
Qed.

(** X21: no request removes or changes a user: the users of the store are
    the first users of the store after any sequence of requests. *)
Theorem users_append_only st reqs : users st `prefix_of` users
    (run generate_password_hash check_password_hash text_as_integer
       st reqs).
Proof. destruct (run_users_grow reqs st) as [more ->]. by exists more. Qed.

End Invariant.

(** ** Creating a task *)




(** ** Updating a task *)

Lemma find_replace (l : list Task.Task) task_id task task' :
  find (λ t, bool_decide (Task.id t = task_id)) l = Some task →
  Task.id task' = task_id →
  find (λ t, bool_decide (Task.id t = task_id))
       ((λ t, if bool_decide (Task.id t = Task.id task') then task' else t) <$> l)
  = Some task'.
Proof.
  intros Hf <-. induction l as [|a l IH]; csimpl in *; [done|].
  destruct (bool_decide (Task.id a = Task.id task')) eqn:Ha.
  - by rewrite bool_decide_eq_true_2.
  - rewrite Ha. by apply IH.
Qed.


Lemma NoDup_fmap_eq {A B} (f : A → B) (l : list A) x y :
  NoDup (f <$> l) → x ∈ l → y ∈ l → f x = f y → x = y.
Proof.
  induction l as [|a l IH]; csimpl; [by intros _ ?%elem_of_nil|].
  rewrite NoDup_cons, !elem_of_cons. intros [Ha Hl] [->|Hx] [->|Hy] Hf; [done| | |eauto].
  - destruct Ha. rewrite Hf. apply list_elem_of_fmap. eauto.
  - destruct Ha. rewrite <- Hf. apply list_elem_of_fmap. eauto.
Qed.






Lemma st_milk_ok : store_ok st_milk.
Proof.
  apply (reachable_store_ok toy_hash toy_check toy_integer).
  exists [Register "s1" ana_body; AddTask milk_body]. reflexivity.
Qed.

Lemma st_two_ok : store_ok st_two.
Proof.
  apply (reachable_store_ok toy_hash toy_check toy_integer).
  by exists two_users_requests.
Qed.

Lemma st_two_typed : store_typed st_two.
Proof.
  apply (reachable_store_typed toy_hash toy_check toy_integer).
  by exists two_users_requests.
Qed.







(** ** Deleting a task *)

Lemma filter_id_other (l : list Task.Task) task_id :
  task_id ∉ (Task.id <$> l) → filter (λ t, Task.id t ≠ task_id) l = l.
Proof.
  induction l as [|a l IH]; csimpl; [done|].
  rewrite not_elem_of_cons. intros [Hne Hl].
  rewrite filter_cons_True by done. f_equal. by apply IH.
Qed.

(** C6, as amended: for an identifier that SQLite holds (a signed 64-bit
    integer), when the task exists, [delete_task] takes exactly that row out
    of the table, leaves every other row in place and answers 200 with the
    confirmation message, and a second [delete_task] on the same identifier
    answers 404; when no task has the identifier the answer is 404 and the
    store is the one before the request. *)
Theorem delete_task_once st task_id :
  store_ok st →
  in_int64 task_id = true →
  match task_get st task_id with
  | Some task =>
      ∃ before after,
        tasks st = before ++ task :: after
        ∧ let st' := {| users := users st; tasks := before ++ after |} in
          delete_task st task_id = ((Message "Tarefa deletada com sucesso", 200), st')
          ∧ task_get st' task_id = None
          ∧ delete_task st' task_id = ((Message "Tarefa não encontrada", 404), st')
  | None =>
      delete_task st task_id = ((Message "Tarefa não encontrada", 404), st)
  end.
Proof.
  intros Hok Hrange. destruct (task_get st task_id) as [task|] eqn:Hget.
  - destruct (task_get_Some _ _ _ Hget) as [Hin Hid].
    destruct Hok as (_ & _ & _ & _ & Hnd & _).
    apply list_elem_of_split in Hin as (before & after & Htasks).
    exists before, after. split; [done|]. simpl.
    rewrite Htasks, fmap_app, fmap_cons in Hnd.
    apply NoDup_app in Hnd as (_ & Hba & Hafter).
    apply NoDup_cons in Hafter as [Hafter _].
    assert (task_id ∉ (Task.id <$> before)) as Hbefore.
    { intros Hb. apply (Hba _ Hb). rewrite Hid. apply list_elem_of_here. }
    rewrite Hid in Hafter.
    assert (task_get {| users := users st; tasks := before ++ after |} task_id = None)
      as Hgone.
    { apply task_get_None. simpl. rewrite fmap_app, elem_of_app. tauto. }
    split; [|split; [exact Hgone|]].
    + unfold delete_task, task_query_get. rewrite Hrange, Hget. unfold remove_task.
      rewrite Htasks, Hid, filter_app, filter_cons_False by (intros Hne; by apply Hne).
      by rewrite !filter_id_other.
    + unfold delete_task, task_query_get. by rewrite Hrange, Hgone.
  - unfold delete_task, task_query_get. by rewrite Hrange, Hget.
Qed.

Lemma delete_task_once_witness :
  (∃ before after,
     tasks st_milk
     = before ++ Task.mk 1 (JStr "Buy milk") (JStr "") JNull (JStr "medium")
                   (JBool false) (JNum 1) :: after
     ∧ let st' := {| users := users st_milk; tasks := before ++ after |} in
       delete_task st_milk 1 = ((Message "Tarefa deletada com sucesso", 200), st')
       ∧ task_get st' 1 = None
       ∧ delete_task st' 1 = ((Message "Tarefa não encontrada", 404), st'))
  ∧ delete_task st_ana 1 = ((Message "Tarefa não encontrada", 404), st_ana).
Proof.
  split.
  - exact (delete_task_once st_milk 1 st_milk_ok eq_refl).
  - exact (delete_task_once st_ana 1
             (reachable_store_ok toy_hash toy_check toy_integer st_ana
                (ex_intro _ [Register "s1" ana_body] eq_refl)) eq_refl).
Defined.

(** C6, as stated, fails: no task has the identifier 2^63, and
    [DELETE /api/tasks/9223372036854775808] is answered 500, not 404,
    because the lookup raises [OverflowError]. *)
Lemma delete_task_huge_id_500 :
  task_get st_milk (2 ^ 63) = None
  ∧ delete_task st_milk (2 ^ 63) = (server_error, st_milk).
Proof. split; reflexivity. Qed.

(** ** Listing the tasks of a user *)

(** C7, as amended: for an identifier that SQLite holds (a signed 64-bit
    integer), [get_user_tasks] answers 404 when no user has the identifier;
    otherwise it answers 200 with the serializations, in table order, of the
    rows of [Task] whose [user_id] is the identifier and of no other row,
    which is the empty array when the user owns no task; each object of the
    array carries the seven columns of its row. *)
Theorem get_user_tasks_lists_own st user_id :
  in_int64 user_id = true →
  (user_id ∉ (User.id <$> users st) →
   get_user_tasks st user_id = (Message "Usuário não encontrado", 404))
  ∧ (user_id ∈ (User.id <$> users st) →
     ∃ rows,
       get_user_tasks st user_id = (TaskArray (Task.to_dict <$> rows), 200)
       ∧ rows `sublist_of` tasks st
       ∧ (∀ t, t ∈ rows ↔ t ∈ tasks st ∧ Task.user_id t = JNum user_id)
       ∧ ((∀ t, t ∈ tasks st → Task.user_id t ≠ JNum user_id) → rows = [])
       ∧ (∀ t, t ∈ rows →
            Task.to_dict t !! "id" = Some (JNum (Task.id t))
            ∧ Task.to_dict t !! "title" = Some (Task.title t)
            ∧ Task.to_dict t !! "description" = Some (Task.description t)
            ∧ Task.to_dict t !! "dueDate" = Some (Task.due_date t)
            ∧ Task.to_dict t !! "priority" = Some (Task.priority t)
            ∧ Task.to_dict t !! "completed" = Some (Task.completed t)
            ∧ Task.to_dict t !! "userId" = Some (JNum user_id))).
Proof.
  intros Hrange. unfold get_user_tasks, user_query_get. rewrite Hrange. split.
  - intros Hno. apply user_get_None in Hno. by rewrite Hno.
  - intros Hyes.
    destruct (user_get st user_id) as [u|] eqn:Hget.
    2:{ apply user_get_None in Hget. done. }
    exists (tasks_of_user st user_id). split; [done|]. unfold tasks_of_user.
    split; [apply sublist_filter|]. split; [|split].
    + intros t. rewrite list_elem_of_filter. tauto.
    + intros Hnone. induction (tasks st) as [|a l IH]; [done|].
      rewrite filter_cons_False by (apply Hnone, list_elem_of_here).
      apply IH. intros t Ht. apply Hnone. by right.
    + intros t [Howner _]%list_elem_of_filter.
      repeat split. rewrite <- Howner. reflexivity.
Qed.

Lemma get_user_tasks_lists_own_witness :
  get_user_tasks st_two 3 = (Message "Usuário não encontrado", 404)
  ∧ get_user_tasks st_ana 1 = (TaskArray [], 200)
  ∧ (∃ rows,
       get_user_tasks st_two 1 = (TaskArray (Task.to_dict <$> rows), 200)
       ∧ (∀ t, t ∈ rows ↔ t ∈ tasks st_two ∧ Task.user_id t = JNum 1))
  ∧ get_user_tasks st_two 1
    = (TaskArray
         [ <["id" := JNum 1]> (<["title" := JStr "Buy milk"]>
           (<["description" := JStr ""]> (<["dueDate" := JNull]>
           (<["priority" := JStr "medium"]> (<["completed" := JBool false]>
           (<["userId" := JNum 1]> ∅))))));
           <["id" := JNum 3]> (<["title" := JStr "Call mum"]>
           (<["description" := JStr ""]> (<["dueDate" := JNull]>
           (<["priority" := JStr "medium"]> (<["completed" := JBool false]>
           (<["userId" := JNum 1]> ∅)))))) ], 200).
Proof.
  split; [|split; [|split]].
  - apply (get_user_tasks_lists_own st_two 3); [reflexivity|].
    change (3 ∉ [1; 2]). rewrite !elem_of_cons, elem_of_nil. lia.
  - destruct (get_user_tasks_lists_own st_ana 1 eq_refl) as [_ H].
    destruct H as (rows & Hresp & _ & _ & Hempty & _); [apply list_elem_of_here|].
    rewrite Hempty in Hresp; [exact Hresp|]. by intros t Ht%elem_of_nil.
  - destruct (get_user_tasks_lists_own st_two 1 eq_refl) as [_ H].
    destruct H as (rows & Hresp & _ & Hrows & _); [apply list_elem_of_here|].
    by exists rows.
  - reflexivity.
Defined.

(** C7, as stated, fails: no user has the identifier 2^63, and
    [GET /api/users/9223372036854775808/tasks] is answered 500, not 404,
    because the lookup raises [OverflowError]. *)
Lemma get_user_tasks_huge_id_500 :
  user_get st_milk (2 ^ 63) = None
  ∧ get_user_tasks st_milk (2 ^ 63) = server_error.
Proof. split; reflexivity. Qed.

Lemma reachable_users_unique_witness :
  let st := run toy_hash toy_check toy_integer empty_store
              [Register "s1" ana_body;
               AddTask milk_body;
               Register "s2" (<["username" := JStr "bob"]> ana_body);
               Register "s2" (<["username" := JNum 5]> bob_body);
               Register "s1" (<["username" := JStr "5"]>
                              (<["email" := JStr "five@x.com"]> bob_body))] in
  NoDup (User.username <$> users st)
  ∧ NoDup (User.email <$> users st)
  ∧ (∀ u, u ∈ users st → is_text (User.username u) ∧ is_text (User.email u)).
Proof.
  intros st. apply (reachable_users_unique toy_hash toy_check toy_integer st).
  eexists. reflexivity.
Defined.

(** * Further properties of the code *)

(** ** The database location *)

Lemma prefix_split (a s : string) :
  String.prefix a s = true → s = String.append a (string_skip (String.length a) s).
Proof.
  revert s. induction a as [|c a IH]; intros s.
  - by destruct s.
  - destruct s as [|d s]; simpl; [done|].
    destruct (Ascii.ascii_dec c d) as [->|]; [|done].
    intros H. change (String d s = String d (a +:+ string_skip (String.length a) s)).
    f_equal. by apply IH.
Qed.

Lemma string_skip_append (a s : string) :
  string_skip (String.length a) (String.append a s) = s.
Proof. induction a as [|c a IH]; simpl; [done | apply IH]. Qed.

Lemma str_replace_first_absent (old new s : string) :
  ¬ occurs old s → str_replace_first old new s = s.
Proof.
  induction s as [|c s IH]; intros Hno; cbn [str_replace_first].
  - destruct (String.prefix old "") eqn:Hp; [|done].
    destruct Hno. exists ""%string, (string_skip (String.length old) ""). simpl.
    by apply prefix_split.
  - destruct (String.prefix old (String c s)) eqn:Hp.
    + destruct Hno. exists ""%string, (string_skip (String.length old) (String c s)).
      simpl. by apply prefix_split.
    + f_equal. apply IH. intros (before & after & ->).
      apply Hno. by exists (String c before), after.
Qed.

Lemma str_replace_first_here (old new after : string) :
  str_replace_first old new (String.append old after) = String.append new after.
Proof.
  destruct (String.append old after) as [|d s] eqn:E; cbn [str_replace_first];
    rewrite <- E; by rewrite prefix_append, string_skip_append.
Qed.

Lemma str_replace_first_leftmost (old new before after : string) c rest :
  old = String c rest →
  (∀ i, String.get i before ≠ Some c) →
  str_replace_first old new (String.append before (String.append old after))
  = String.append before (String.append new after).
Proof.
  intros -> Hfree. induction before as [|d before IH].
  - exact (str_replace_first_here (String c rest) new after).
  - assert (c ≠ d) as Hne by (intros ->; by destruct (Hfree 0%nat)).
    change (str_replace_first (String c rest) new
              (String d (String.append before (String.append (String c rest) after)))
            = String d (String.append before (String.append new after))).
    cbn [str_replace_first String.prefix].
    destruct (Ascii.ascii_dec c d) as [->|_]; [done|].
    f_equal. apply IH. intros i. apply (Hfree (S i)).
Qed.

(** X1: when [DATABASE_URL] is not set, or holds a URL in which
    ["postgres://"] does not occur, the database URI is the default
    ['sqlite:///taskflex.db'], respectively the URL as it is. *)
Theorem database_uri_unchanged (env : option string) :
  ¬ occurs "postgres://" (default "sqlite:///taskflex.db"%string env) →
  database_uri env = default "sqlite:///taskflex.db"%string env.
Proof. intros Hno. unfold database_uri. by apply str_replace_first_absent. Qed.

Lemma occurs_first_char (old s : string) c rest :
  old = String c rest → occurs old s → ∃ i, String.get i s = Some c.
Proof.
  intros -> (before & after & ->).
  induction before as [|d before [i Hi]]; [by exists 0%nat|].
  by exists (S i).
Qed.

Lemma database_uri_unchanged_witness :
  database_uri None = "sqlite:///taskflex.db"%string
  ∧ database_uri (Some "sqlite:///data/x.db"%string) = "sqlite:///data/x.db"%string.
Proof.
  split.
  - apply (database_uri_unchanged None).
    intros [i Hi]%(occurs_first_char _ _ "p"%char "ostgres://" eq_refl).
    do 21 (destruct i as [|i]; [vm_compute in Hi; discriminate Hi|]).
    vm_compute in Hi; discriminate Hi.
  - apply (database_uri_unchanged (Some "sqlite:///data/x.db"%string)).
    intros [i Hi]%(occurs_first_char _ _ "p"%char "ostgres://" eq_refl).
    do 19 (destruct i as [|i]; [vm_compute in Hi; discriminate Hi|]).
    vm_compute in Hi; discriminate Hi.
Defined.

(** X2: the leftmost ["postgres://"] of [DATABASE_URL] is rewritten to
    ["postgresql://"] and the rest of the URL is kept, whatever it holds;
    the occurrence need not be at the start of the URL. *)
Theorem database_uri_rewrites_leftmost (before after : string) :
  (∀ i, String.get i before ≠ Some "p"%char) →
  database_uri (Some (String.append before (String.append "postgres://" after)))
  = String.append before (String.append "postgresql://" after).
Proof.
  intros Hfree. unfold database_uri. simpl default.
  by apply (str_replace_first_leftmost _ _ _ _ "p"%char "ostgres://").
Qed.

Lemma database_uri_rewrites_leftmost_witness :
  database_uri (Some "postgres://u:pw@host/db?alt=postgres://other"%string)
  = "postgresql://u:pw@host/db?alt=postgres://other"%string
  ∧ database_uri (Some "mysql+postgres://host/db"%string)
    = "mysql+postgresql://host/db"%string.
Proof.
  split.
  - apply (database_uri_rewrites_leftmost "" "u:pw@host/db?alt=postgres://other").
    intros i. by destruct i.
  - apply (database_uri_rewrites_leftmost "mysql+" "host/db").
    intros i. do 6 (destruct i as [|i]; [vm_compute; discriminate|]).
    vm_compute; discriminate.
Defined.

(** ** Serialization *)

(** X3: [to_dict] has the seven keys [id], [title], [description],
    [dueDate], [priority], [completed] and [userId] and no other, and two
    tasks with the same serialization are the same task: the object holds
    every column of the row. *)
Theorem to_dict_keys_and_injective (t1 t2 : Task.Task) :
  dom (Task.to_dict t1)
  = list_to_set (C := gset string)
      ["id"; "title"; "description"; "dueDate"; "priority"; "completed"; "userId"]%string
  ∧ (Task.to_dict t1 = Task.to_dict t2 → t1 = t2).
Proof.
  split.
  - unfold Task.to_dict. rewrite !dom_insert_L, dom_empty_L. simpl. set_solver.
  - intros Heq.
    pose proof (f_equal (.!! "id"%string) Heq) as Hid.
    pose proof (f_equal (.!! "title"%string) Heq) as Htitle.
    pose proof (f_equal (.!! "description"%string) Heq) as Hdesc.
    pose proof (f_equal (.!! "dueDate"%string) Heq) as Hdue.
    pose proof (f_equal (.!! "priority"%string) Heq) as Hprio.
    pose proof (f_equal (.!! "completed"%string) Heq) as Hdone.
    pose proof (f_equal (.!! "userId"%string) Heq) as Huid.
    destruct t1, t2.
    change (Some (JNum id) = Some (JNum id0)) in Hid.
    change (Some title = Some title0) in Htitle.
    change (Some description = Some description0) in Hdesc.
    change (Some due_date = Some due_date0) in Hdue.
    change (Some priority = Some priority0) in Hprio.
    change (Some completed = Some completed0) in Hdone.
    change (Some user_id = Some user_id0) in Huid.
    congruence.
Qed.

Lemma to_dict_keys_and_injective_witness :
  let milk := Task.mk 1 (JStr "Buy milk") (JStr "") JNull (JStr "medium")
                (JBool false) (JNum 1) in
  let copy := Task.mk (0 + 1) (JStr "Buy milk") (JStr "") JNull (JStr "medium")
                (JBool false) (JNum 1) in
  dom (Task.to_dict milk)
  = list_to_set (C := gset string)
      ["id"; "title"; "description"; "dueDate"; "priority"; "completed"; "userId"]%string
  ∧ milk = copy.
Proof.
  intros milk copy.
  destruct (to_dict_keys_and_injective milk copy) as [Hdom Hinj].
  split; [exact Hdom | exact (Hinj eq_refl)].
Defined.

(** ** Creating a task: the other answers *)

(** X4: a body without [title] or without [userId], the empty body among
    them, is answered 400 with the incomplete-data message and the store is
    the one before the request. *)
Theorem add_task_missing_key text_as_integer st (data : gmap string json) :
  data !! "title" = None ∨ data !! "userId" = None →
  add_task text_as_integer st data = ((Message "Dados incompletos", 400), st).
Proof.
  intros H. unfold add_task.
  destruct H as [H|H]; rewrite (dict_in_None _ _ H); simpl.
  - by rewrite orb_true_r.
  - by rewrite orb_true_r.
Qed.

Lemma add_task_missing_key_witness :
  add_task toy_integer st_ana ∅ = ((Message "Dados incompletos", 400), st_ana)
  ∧ add_task toy_integer st_ana (<["title" := JStr "Buy milk"]> ∅)
    = ((Message "Dados incompletos", 400), st_ana).
Proof.
  split.
  - apply (add_task_missing_key toy_integer st_ana ∅). by left.
  - apply (add_task_missing_key toy_integer st_ana (<["title" := JStr "Buy milk"]> ∅)).
    by right.
Defined.

(** X5: a body with [title] and with a [userId] that is an integer that
    SQLite holds (a signed 64-bit integer) but the identifier of no user is
    answered 404 with the user-not-found message, and the store is the one
    before the request. *)
Theorem add_task_unknown_user text_as_integer st (data : gmap string json) uid :
  is_Some (data !! "title") →
  data !! "userId" = Some (JNum uid) →
  in_int64 uid = true →
  uid ∉ (User.id <$> users st) →
  add_task text_as_integer st data = ((Message "Usuário não encontrado", 404), st).
Proof.
  intros [title Ht] Hu Hrange Hno. unfold add_task.
  rewrite (lookup_Some_nonempty _ _ _ Ht).
  rewrite (dict_in_lookup _ _ _ Ht), (dict_in_lookup _ _ _ Hu). simpl.
  rewrite (dict_get_lookup _ _ _ Hu). unfold user_query_get_json. simpl.
  rewrite Hrange. apply user_get_None in Hno. by rewrite Hno.
Qed.

Lemma add_task_unknown_user_witness :
  add_task toy_integer st_ana (<["userId" := JNum 7]> milk_body)
  = ((Message "Usuário não encontrado", 404), st_ana).
Proof.
  apply (add_task_unknown_user toy_integer st_ana (<["userId" := JNum 7]> milk_body) 7).
  - by eexists.
  - reflexivity.
  - reflexivity.
  - change (7 ∉ [1]). rewrite list_elem_of_singleton. lia.
Defined.

(** X6: whatever the body, [add_task] answers 400, 404, 500 or 201; it
    never changes the users; with any answer but 201 the store is the one
    before the request, and with 201 exactly one row was appended to the
    tasks, the one that is returned, under an identifier that no task had;
    its title is the text of the submitted title and is not null, and its
    owner is the existing user that the submitted [userId] denotes. *)
Theorem add_task_frame text_as_integer st (data : gmap string json) :
  let r := (add_task text_as_integer st data).1 in
  let st' := (add_task text_as_integer st data).2 in
  r.2 ∈ [400; 404; 500; 201]
  ∧ users st' = users st
  ∧ (r.2 ≠ 201 → st' = st)
  ∧ (r.2 = 201 →
     ∃ row uid title,
       tasks st' = tasks st ++ [row]
       ∧ r.1 = TaskObject (Task.to_dict row)
       ∧ (Task.id row ∉ (Task.id <$> tasks st))
       ∧ Task.title row ≠ JNull
       ∧ data !! "title" = Some title
       ∧ to_text title = Some (Task.title row)
       ∧ Task.user_id row = JNum uid
       ∧ to_integer text_as_integer (dict_get data "userId") = Some (Some uid)
       ∧ uid ∈ (User.id <$> users st)).
Proof.
  intros r st'. subst r st'.
  destruct (add_task_cases text_as_integer st data)
    as [(r & -> & Hr) | (user & row & st' & Hkey & Huser & [title Ht] & Hins & ->)];
    simpl.
  { by destruct (add_task_failure_status _ Hr). }
  rewrite (dict_get_lookup _ _ _ Ht) in Hins.
  apply insert_task_inv in Hins
    as (t & d & dd & p & Htt & Hnn & _ & _ & _ & _ & -> & ->). simpl.
  split; [rewrite !elem_of_cons; tauto|]. split; [done|]. split; [done|]. intros _.
  exists (Task.mk (next_id (Task.id <$> tasks st)) t d dd
            (if bool_decide (p = JNull) then JStr "medium" else p)
            (JBool false) (JNum (User.id user))), (User.id user), title.
  split; [done|]. split; [done|]. split; [apply next_id_fresh|].
  repeat split; try done. apply list_elem_of_fmap. eauto.
Qed.

Lemma add_task_frame_witness :
  ∃ row uid title,
    tasks (add_task toy_integer st_two mum_body).2 = tasks st_two ++ [row]
    ∧ (add_task toy_integer st_two mum_body).1.1 = TaskObject (Task.to_dict row)
    ∧ (Task.id row ∉ (Task.id <$> tasks st_two))
    ∧ Task.title row ≠ JNull
    ∧ mum_body !! "title" = Some title
    ∧ to_text title = Some (Task.title row)
    ∧ Task.user_id row = JNum uid
    ∧ to_integer toy_integer (dict_get mum_body "userId") = Some (Some uid)
    ∧ uid ∈ (User.id <$> users st_two).
Proof.
  destruct (add_task_frame toy_integer st_two mum_body) as (_ & _ & _ & Hcreated).
  apply Hcreated. reflexivity.
Defined.

Lemma filter_snoc {A} (P : A → Prop) `{∀ x, Decision (P x)} (l : list A) (x : A) :
  filter P (l ++ [x]) = filter P l ++ (if decide (P x) then [x] else []).
Proof. by rewrite filter_app. Qed.

(** X7: in a store whose columns hold values of their types, after a
    request that [add_task] answered 201, the identifier of the new task
    resolves to it, every other identifier resolves as before, the listing
    of the owner of the new task is the listing before the request followed
    by the new task, and the listing of every other user is the one before
    the request. *)
Theorem add_task_then_read text_as_integer st (data : gmap string json) :
  store_typed st →
  (add_task text_as_integer st data).1.2 = 201 →
  ∃ row uid,
    let st' := (add_task text_as_integer st data).2 in
    (add_task text_as_integer st data).1 = (TaskObject (Task.to_dict row), 201)
    ∧ Task.user_id row = JNum uid
    ∧ task_get st' (Task.id row) = Some row
    ∧ (∀ other, other ≠ Task.id row → task_get st' other = task_get st other)
    ∧ get_user_tasks st' uid
      = (TaskArray ((Task.to_dict <$> tasks_of_user st uid) ++ [Task.to_dict row]), 200)
    ∧ (∀ other, other ≠ uid → get_user_tasks st' other = get_user_tasks st other).
Proof.
  intros [Husers _] H201.
  destruct (add_task_cases text_as_integer st data)
    as [(r & Heq & Hr) | (user & row & st' & _ & Huser & _ & Hins & Heq)];
    rewrite Heq in H201 |- *; simpl in H201 |- *.
  { by destruct (add_task_failure_status _ Hr). }
  apply insert_task_inv in Hins
    as (t & d & dd & p & _ & _ & _ & _ & _ & _ & Hrow & ->).
  exists row, (User.id user).
  assert (Task.id row = next_id (Task.id <$> tasks st)) as Hid by by subst row.
  assert (Task.user_id row = JNum (User.id user)) as Howner by by subst row.
  clear Hrow. split; [done|]. split; [done|].
  assert (task_get st (Task.id row) = None) as Hfresh.
  { apply task_get_None. rewrite Hid. apply next_id_fresh. }
  rewrite Forall_forall in Husers. destruct (Husers user Huser) as (Hrange & _).
  assert (is_Some (user_get st (User.id user))) as [found Hfound].
  { apply not_eq_None_Some. intros Hnone%user_get_None. apply Hnone.
    apply list_elem_of_fmap. eauto. }
  split; [|split; [|split]].
  - unfold task_get in *. simpl. rewrite find_snoc, Hfresh.
    by rewrite bool_decide_eq_true_2.
  - intros other Hne. unfold task_get. simpl. rewrite find_snoc.
    destruct (find _ (tasks st)); [done|].
    by rewrite bool_decide_eq_false_2.
  - unfold get_user_tasks, user_query_get, user_get, tasks_of_user in *. simpl.
    rewrite Hrange, Hfound.
    rewrite filter_snoc, decide_True by done. by rewrite fmap_app.
  - intros other Hne.
    unfold get_user_tasks, user_query_get, user_get, tasks_of_user. simpl.
    rewrite filter_snoc, decide_False, app_nil_r; [done|].
    rewrite Howner. congruence.
Qed.

Lemma add_task_then_read_witness :
  ∃ row uid,
    let st' := (add_task toy_integer st_two mum_body).2 in
    (add_task toy_integer st_two mum_body).1 = (TaskObject (Task.to_dict row), 201)
    ∧ Task.user_id row = JNum uid
    ∧ task_get st' (Task.id row) = Some row
    ∧ (∀ other, other ≠ Task.id row → task_get st' other = task_get st_two other)
    ∧ get_user_tasks st' uid
      = (TaskArray ((Task.to_dict <$> tasks_of_user st_two uid) ++ [Task.to_dict row]),
         200)
    ∧ (∀ other, other ≠ uid → get_user_tasks st' other = get_user_tasks st_two other).
Proof.
  apply (add_task_then_read toy_integer st_two mum_body); [exact st_two_typed|].
  reflexivity.
Defined.

(** X8: after a request that [add_task] answered 201, deleting the task by
    the identifier that was returned is answered 200 and gives back the
    store before the two requests. *)
Theorem add_task_then_delete text_as_integer st (data : gmap string json) :
  (add_task text_as_integer st data).1.2 = 201 →
  ∃ row,
    (add_task text_as_integer st data).1 = (TaskObject (Task.to_dict row), 201)
    ∧ delete_task (add_task text_as_integer st data).2 (Task.id row)
      = ((Message "Tarefa deletada com sucesso", 200), st).
Proof.
  intros H201.
  destruct (add_task_cases text_as_integer st data)
    as [(r & Heq & Hr) | (user & row & st' & _ & Huser & _ & Hins & Heq)];
    rewrite Heq in H201 |- *; simpl in H201 |- *.
  { by destruct (add_task_failure_status _ Hr). }
  apply insert_task_inv in Hins
    as (t & d & dd & p & _ & _ & _ & _ & _ & Hkey & Hrow & ->).
  exists row. split; [done|].
  assert (Task.id row = next_id (Task.id <$> tasks st)) as Hid by by subst row.
  clear Hrow.
  assert (Task.id row ∉ (Task.id <$> tasks st)) as Hfresh.
  { rewrite Hid. apply next_id_fresh. }
  unfold delete_task, task_query_get, task_get. simpl. rewrite Hid, Hkey, <- Hid.
  rewrite find_snoc.
  pose proof Hfresh as Hnone. apply task_get_None in Hnone.
  unfold task_get in Hnone. rewrite Hnone.
  rewrite bool_decide_eq_true_2 by done. unfold remove_task. simpl.
  rewrite filter_snoc, decide_False, app_nil_r by (intros Hne; by apply Hne).
  rewrite filter_id_other by done.
  by destruct st.
Qed.

Lemma add_task_then_delete_witness :
  ∃ row,
    (add_task toy_integer st_two mum_body).1 = (TaskObject (Task.to_dict row), 201)
    ∧ delete_task (add_task toy_integer st_two mum_body).2 (Task.id row)
      = ((Message "Tarefa deletada com sucesso", 200), st_two).
Proof.
  apply (add_task_then_delete toy_integer st_two mum_body). reflexivity.
Defined.

(** ** Updating a task: the other answers *)

(** X9: when no task has the identifier, which is an integer that SQLite
    holds (a signed 64-bit integer), [update_task] answers 404 with the
    task-not-found message, whatever the body, and the store is the one
    before the request. *)
Theorem update_task_missing st task_id (data : gmap string json) :
  in_int64 task_id = true →
  task_id ∉ (Task.id <$> tasks st) →
  update_task st task_id data = ((Message "Tarefa não encontrada", 404), st).
Proof.
  intros Hrange Hno. apply task_get_None in Hno.
  unfold update_task, task_query_get. by rewrite Hrange, Hno.
Qed.

Lemma update_task_missing_witness :
  update_task st_two 9 (<["title" := JStr "x"]> ∅)
  = ((Message "Tarefa não encontrada", 404), st_two).
Proof.
  apply (update_task_missing st_two 9); [reflexivity|].
  change (9 ∉ [1; 2; 3]). rewrite !elem_of_cons, elem_of_nil. lia.
Defined.

Lemma replace_owner (l : list Task.Task) task row :
  NoDup (Task.id <$> l) → task ∈ l →
  Task.id row = Task.id task → Task.user_id row = Task.user_id task →
  Task.user_id <$>
    ((λ t, if bool_decide (Task.id t = Task.id row) then row else t) <$> l)
  = Task.user_id <$> l.
Proof.
  intros Hnd Hin Hid Hown. rewrite <- list_fmap_compose.
  apply list_fmap_ext. intros i t Ht%list_elem_of_lookup_2. simpl.
  case_bool_decide as Heq; [|done]. rewrite Hid in Heq.
  by rewrite (NoDup_fmap_eq Task.id l t task Hnd Ht Hin Heq).
Qed.

(** X10: whatever the identifier and the body, [update_task] answers 404,
    500 or 200, never changes the users, and neither adds nor removes a task
    nor changes an identifier; in a store that satisfies the declared
    constraints it never changes the owner of a task either. *)
Theorem update_task_frame st task_id (data : gmap string json) :
  store_ok st →
  let r := (update_task st task_id data).1 in
  let st' := (update_task st task_id data).2 in
  r.2 ∈ [404; 500; 200]
  ∧ users st' = users st
  ∧ Task.id <$> tasks st' = Task.id <$> tasks st
  ∧ Task.user_id <$> tasks st' = Task.user_id <$> tasks st
  ∧ (r.2 ≠ 200 → st' = st).
Proof.
  intros Hok r st'. subst r st'.
  destruct (update_task_cases st task_id data)
    as [(r & -> & Hr) | (task & row & _ & Hget & Hrow & _ & _ & ->)]; simpl.
  { by destruct (update_task_failure_status _ Hr). }
  split; [rewrite !elem_of_cons; tauto|]. split; [done|].
  destruct (task_get_Some _ _ _ Hget) as [Hin _].
  destruct (update_row_id _ _ _ Hrow) as [Hid Hown].
  destruct Hok as (_ & _ & _ & _ & Hnd & _).
  split; [|split; [|done]].
  - exact (fmap_id_replace row (tasks st)).
  - exact (replace_owner (tasks st) task row Hnd Hin Hid Hown).
Qed.

Lemma update_task_frame_witness :
  let body : gmap string json :=
    <["userId" := JNum 1]> (<["id" := JNum 7]> (<["completed" := JBool true]> ∅)) in
  let st' := (update_task st_two 2 body).2 in
  users st' = users st_two
  ∧ Task.id <$> tasks st' = [1; 2; 3]
  ∧ Task.user_id <$> tasks st' = [JNum 1; JNum 2; JNum 1].
Proof.
  intros body st'.
  destruct (update_task_frame st_two 2 body st_two_ok) as (_ & Hu & Hid & Hown & _).
  split; [exact Hu|]. split; [exact Hid | exact Hown].
Defined.

(** X11: [update_task] reads only the keys [title], [description],
    [dueDate], [priority] and [completed]: two bodies that agree on these
    five keys get the same answer and leave the same store. *)
Theorem update_task_reads_five_keys st task_id (data1 data2 : gmap string json) :
  (∀ key, key ∈ ["title"; "description"; "dueDate"; "priority"; "completed"]%string →
          data1 !! key = data2 !! key) →
  update_task st task_id data1 = update_task st task_id data2.
Proof.
  intros Hagree. unfold update_task.
  destruct (task_query_get st task_id) as [[task|]|]; [|done..].
  assert (update_row task data1 = update_row task data2) as ->; [|done].
  unfold update_row, column_write.
  rewrite (Hagree "title"%string), (Hagree "description"%string),
    (Hagree "dueDate"%string), (Hagree "priority"%string),
    (Hagree "completed"%string); [done|..];
    rewrite !elem_of_cons; tauto.
Qed.

Lemma update_task_reads_five_keys_witness :
  update_task st_two 2 (<["userId" := JNum 1]> (<["id" := JNum 7]>
                         (<["completed" := JBool true]> ∅)))
  = update_task st_two 2 (<["completed" := JBool true]> ∅).
Proof.
  apply (update_task_reads_five_keys st_two 2).
  intros key Hkey. rewrite !elem_of_cons, elem_of_nil in Hkey.
  destruct Hkey as [->|[->|[->|[->|[->|[]]]]]]; reflexivity.
Defined.

Lemma column_write_again convert data key old new :
  column_write convert data key old = Some new →
  column_write convert data key new = Some new.
Proof. unfold column_write. by destruct (data !! key). Qed.

Lemma update_row_again task data row :
  update_row task data = Some row → update_row row data = Some row.
Proof.
  intros (Ht & Hd & Hdd & Hp & Hc & _)%update_row_fields.
  apply update_row_fields.
  split; [exact (column_write_again _ _ _ _ _ Ht)|].
  split; [exact (column_write_again _ _ _ _ _ Hd)|].
  split; [exact (column_write_again _ _ _ _ _ Hdd)|].
  split; [exact (column_write_again _ _ _ _ _ Hp)|].
  split; [exact (column_write_again _ _ _ _ _ Hc)|].
  done.
Qed.

Lemma replace_replace (l : list Task.Task) row1 row2 :
  Task.id row2 = Task.id row1 →
  (λ t, if bool_decide (Task.id t = Task.id row2) then row2 else t)
    <$> ((λ t, if bool_decide (Task.id t = Task.id row1) then row1 else t) <$> l)
  = (λ t, if bool_decide (Task.id t = Task.id row2) then row2 else t) <$> l.
Proof.
  intros Hid. rewrite <- list_fmap_compose. apply list_fmap_ext.
  intros i t _. simpl. rewrite Hid.
  destruct (decide (Task.id t = Task.id row1)) as [Heq|Hne].
  - rewrite (bool_decide_eq_true_2 _ Heq). by rewrite bool_decide_eq_true_2.
  - rewrite (bool_decide_eq_false_2 _ Hne). by rewrite (bool_decide_eq_false_2 _ Hne).
Qed.

(** What a second [update_task] on the same task sees after a first one
    that was answered 200. *)
Lemma update_task_after st task_id (data1 data2 : gmap string json) task row1 :
  in_int64 task_id = true →
  task_get st task_id = Some task →
  update_row task data1 = Some row1 →
  let st1 := {| users := users st;
                tasks := (λ t, if bool_decide (Task.id t = Task.id row1) then row1 else t)
                           <$> tasks st |} in
  update_task st1 task_id data2
  = match update_row row1 data2 with
    | Some row2 =>
        if bool_decide (Task.title row2 = JNull)
           || bool_decide (Task.user_id row2 = JNull)
        then (server_error, st1)
        else ((TaskObject (Task.to_dict row2), 200),
              {| users := users st;
                 tasks := (λ t, if bool_decide (Task.id t = Task.id row2)
                                then row2 else t) <$> tasks st |})
    | None => (server_error, st1)
    end.
Proof.
  intros Hrange Hget Hrow1 st1.
  destruct (update_row_id _ _ _ Hrow1) as [Hid1 _].
  destruct (task_get_Some _ _ _ Hget) as [_ Htid].
  assert (task_get st1 task_id = Some row1) as Hget1.
  { rewrite <- Htid, <- Hid1.
    apply (find_replace (tasks st) (Task.id row1) task row1); [|done].
    by rewrite Hid1, Htid. }
  unfold update_task, task_query_get. rewrite Hrange, Hget1.
  destruct (update_row row1 data2) as [row2|] eqn:Hrow2; [|done].
  destruct (update_row_id _ _ _ Hrow2) as [Hid2 _].
  unfold commit_task. destruct (_ || _); [done|]. simpl.
  by rewrite (replace_replace (tasks st) row1 row2 Hid2).
Qed.

Lemma column_write_union convert (data1 data2 : gmap string json) key old mid new :
  column_write convert data1 key old = Some mid →
  column_write convert data2 key mid = Some new →
  column_write convert (data2 ∪ data1) key old = Some new.
Proof.
  unfold column_write. rewrite lookup_union.
  destruct (data2 !! key) as [v2|], (data1 !! key) as [v1|]; simpl; congruence.
Qed.

Lemma update_row_union task (data1 data2 : gmap string json) row1 row2 :
  update_row task data1 = Some row1 →
  update_row row1 data2 = Some row2 →
  update_row task (data2 ∪ data1) = Some row2.
Proof.
  intros (Ht & Hd & Hdd & Hp & Hc & Hid & Hu)%update_row_fields.
  intros (Ht' & Hd' & Hdd' & Hp' & Hc' & Hid' & Hu')%update_row_fields.
  apply update_row_fields.
  split; [exact (column_write_union _ _ _ _ _ _ _ Ht Ht')|].
  split; [exact (column_write_union _ _ _ _ _ _ _ Hd Hd')|].
  split; [exact (column_write_union _ _ _ _ _ _ _ Hdd Hdd')|].
  split; [exact (column_write_union _ _ _ _ _ _ _ Hp Hp')|].
  split; [exact (column_write_union _ _ _ _ _ _ _ Hc Hc')|].
  split; congruence.
Qed.

(** X12: when an update of a task is answered 200 and a second update of
    the same task is answered 200 too, the second answer and the store it
    leaves are those of a single update with the two bodies merged, the
    second body taking precedence. *)
Theorem update_task_twice st task_id (data1 data2 : gmap string json) :
  (update_task st task_id data1).1.2 = 200 →
  (update_task (update_task st task_id data1).2 task_id data2).1.2 = 200 →
  update_task (update_task st task_id data1).2 task_id data2
  = update_task st task_id (data2 ∪ data1).
Proof.
  intros H1 H2.
  destruct (update_task_cases st task_id data1)
    as [(r & Heq & Hr) | (task & row1 & Hrange & Hget & Hrow1 & _ & _ & Heq)];
    rewrite Heq in H1, H2 |- *; simpl in H1, H2 |- *.
  { by destruct (update_task_failure_status _ Hr). }
  rewrite (update_task_after st task_id data1 data2 task row1 Hrange Hget Hrow1)
    in H2 |- *.
  destruct (update_row row1 data2) as [row2|] eqn:Hrow2; [|done].
  destruct (bool_decide (Task.title row2 = JNull)
            || bool_decide (Task.user_id row2 = JNull)) eqn:Hnull; [done|].
  unfold update_task, task_query_get. rewrite Hrange, Hget.
  rewrite (update_row_union task data1 data2 row1 row2 Hrow1 Hrow2).
  unfold commit_task. by rewrite Hnull.
Qed.

Lemma update_task_twice_witness :
  let first : gmap string json :=
    <["priority" := JStr "low"]> (<["completed" := JNum 1]> ∅) in
  let second : gmap string json :=
    <["priority" := JNull]> (<["title" := JNum 7]> ∅) in
  update_task (update_task st_two 2 first).2 2 second
  = update_task st_two 2 (second ∪ first).
Proof.
  intros first second.
  apply (update_task_twice st_two 2 first second); reflexivity.
Defined.

(** X13: in a store that satisfies the declared constraints, repeating an
    update whose body carries no null title gets the same answer and leaves
    the store that the first update left. *)
Theorem update_task_idempotent st task_id (data : gmap string json) :
  store_ok st →
  data !! "title" ≠ Some JNull →
  update_task (update_task st task_id data).2 task_id data
  = update_task st task_id data.
Proof.
  intros Hok Hn.
  destruct (update_task_cases st task_id data)
    as [(r & Heq & Hr) | (task & row & Hrange & Hget & Hrow & Ht & Hu & Heq)];
    rewrite Heq; simpl; [done|].
  rewrite (update_task_after st task_id data data task row Hrange Hget Hrow).
  rewrite (update_row_again task data row Hrow).
  by rewrite (bool_decide_eq_false_2 _ Ht), (bool_decide_eq_false_2 _ Hu).
Qed.

Lemma update_task_idempotent_witness :
  let body : gmap string json :=
    <["dueDate" := JNull]> (<["completed" := JBool true]> ∅) in
  update_task (update_task st_two 2 body).2 2 body = update_task st_two 2 body.
Proof.
  intros body.
  apply (update_task_idempotent st_two 2 body); [exact st_two_ok | discriminate].
Defined.

(** ** Deleting a task: what is kept *)

Lemma find_filter_other (l : list Task.Task) task_id other :
  other ≠ task_id →
  find (λ t, bool_decide (Task.id t = other)) (filter (λ t, Task.id t ≠ task_id) l)
  = find (λ t, bool_decide (Task.id t = other)) l.
Proof.
  intros Hne. induction l as [|a l IH]; [done|].
  rewrite filter_cons. destruct (decide (Task.id a ≠ task_id)) as [Ha|Ha]; simpl.
  - by rewrite IH.
  - rewrite IH. rewrite bool_decide_eq_false_2; [done|].
    intros Hao. apply Ha. congruence.
Qed.

(** X14: whatever the identifier, [delete_task] answers 404, 500 or 200 and
    never changes the users; every other identifier resolves to the row it
    resolved to before; with an answer other than 200 the store is the one
    before the request; with 200 the identifier resolves to no row any more
    and the listing of each user is the listing before the request without
    the task of that identifier. *)
Theorem delete_task_frame st task_id :
  let r := (delete_task st task_id).1 in
  let st' := (delete_task st task_id).2 in
  r.2 ∈ [404; 500; 200]
  ∧ users st' = users st
  ∧ (∀ other, other ≠ task_id → task_get st' other = task_get st other)
  ∧ (r.2 ≠ 200 → st' = st)
  ∧ (r.2 = 200 →
     task_get st' task_id = None
     ∧ ∀ uid, tasks_of_user st' uid
              = filter (λ t, Task.id t ≠ task_id) (tasks_of_user st uid)).
Proof.
  intros r st'. subst r st'. unfold delete_task, task_query_get.
  destruct (in_int64 task_id) eqn:Hrange; simpl.
  2:{ split; [rewrite !elem_of_cons; tauto|]. done. }
  destruct (task_get st task_id) as [task|] eqn:Hget; simpl.
  2:{ split; [rewrite !elem_of_cons; tauto|]. done. }
  destruct (task_get_Some _ _ _ Hget) as [_ Hid].
  unfold remove_task, tasks_of_user, task_get. simpl. rewrite Hid.
  split; [rewrite !elem_of_cons; tauto|]. split; [done|]. split; [|split; [done|]].
  - intros other Hne. by apply find_filter_other.
  - intros _. split.
    + apply find_None_Forall, Forall_forall. intros t [Hne _]%list_elem_of_filter.
      by apply bool_decide_eq_false_2.
    + intros uid. rewrite !list_filter_filter. apply list_filter_iff. tauto.
Qed.

Lemma delete_task_frame_witness :
  (delete_task st_two 9).2 = st_two
  ∧ task_get (delete_task st_two 2).2 2 = None
  ∧ tasks_of_user (delete_task st_two 1).2 1
    = filter (λ t, Task.id t ≠ 1) (tasks_of_user st_two 1).
Proof.
  split; [|split].
  - destruct (delete_task_frame st_two 9) as (_ & _ & _ & Hsame & _).
    apply Hsame. discriminate.
  - destruct (delete_task_frame st_two 2) as (_ & _ & _ & _ & Hgone).
    apply Hgone. reflexivity.
  - destruct (delete_task_frame st_two 1) as (_ & _ & _ & _ & Hgone).
    apply Hgone. reflexivity.
Defined.

(** ** Registration: the other answers *)

Section RegistrationMore.
Variable generate_password_hash : string → string → string.

(** X15: a registration in which [username], [email] or [password] is
    absent or null is answered 400 with the missing-fields message and the
    store is the one before the request. *)
Theorem register_missing_field st salt (data : gmap string json) key :
  key ∈ ["username"; "email"; "password"]%string →
  data !! key = None ∨ data !! key = Some JNull →
  register generate_password_hash st salt data
  = ((Message "Faltam dados obrigatórios", 400), st).
Proof.
  intros Hkey Hmiss.
  assert (truthy (dict_get data key) = false) as Hfalse.
  { unfold dict_get. by destruct Hmiss as [-> | ->]. }
  unfold register. rewrite !elem_of_cons, elem_of_nil in Hkey.
  destruct Hkey as [->|[->|[->|[]]]]; rewrite Hfalse; simpl.
  - done.
  - by rewrite orb_true_r.
  - by rewrite orb_true_r.
Qed.

(** X16: whatever the body, [register] answers 400, 409, 500 or 201 and
    never changes the tasks; with any answer but 201 the store is the one
    before the request; with 201 exactly one user was appended, under an
    identifier that no user had, whose username and email are the texts of
    the submitted ones, which no user had, and whose password hash is the
    hash of the submitted password, which is a string. *)
Theorem register_frame st salt (data : gmap string json) :
  let r := (register generate_password_hash st salt data).1 in
  let st' := (register generate_password_hash st salt data).2 in
  r.2 ∈ [400; 409; 500; 201]
  ∧ tasks st' = tasks st
  ∧ (r.2 ≠ 201 → st' = st)
  ∧ (r.2 = 201 →
     ∃ p new_user,
       data !! "password" = Some (JStr p)
       ∧ users st' = users st ++ [new_user]
       ∧ (User.id new_user ∉ (User.id <$> users st))
       ∧ to_text (dict_get data "username") = Some (User.username new_user)
       ∧ to_text (dict_get data "email") = Some (User.email new_user)
       ∧ is_text (User.username new_user)
       ∧ is_text (User.email new_user)
       ∧ (User.username new_user ∉ (User.username <$> users st))
       ∧ (User.email new_user ∉ (User.email <$> users st))
       ∧ User.password_hash new_user = generate_password_hash salt p).
Proof.
  intros r st'. subst r st'.
  destruct (register_cases generate_password_hash st salt data)
    as [(r0 & Heq & Hr)
       | (p & uname & mail & Hpw & _ & _ & Htu & Hte & Hfu & Hfe & _ & Heq)];
    rewrite Heq; simpl.
  { by destruct (register_failure_status _ Hr). }
  split; [rewrite !elem_of_cons; tauto|]. split; [done|]. split; [done|]. intros _.
  eexists p, _. split; [|split; [reflexivity|]].
  { unfold dict_get in Hpw. by destruct (data !! "password") as [v|]; simplify_eq/=. }
  split; [apply next_id_fresh|]. simpl.
  split; [done|]. split; [done|]. split; [by eexists|]. split; [by eexists|]. done.
Qed.

End RegistrationMore.

Lemma register_missing_field_witness :
  register toy_hash st_ana "s2" (delete "email" bob_body)
  = ((Message "Faltam dados obrigatórios", 400), st_ana)
  ∧ register toy_hash st_ana "s2" (<["password" := JNull]> bob_body)
    = ((Message "Faltam dados obrigatórios", 400), st_ana).
Proof.
  split.
  - apply (register_missing_field toy_hash st_ana "s2" _ "email").
    + rewrite !elem_of_cons. tauto.
    + left. reflexivity.
  - apply (register_missing_field toy_hash st_ana "s2" _ "password").
    + rewrite !elem_of_cons. tauto.
    + right. reflexivity.
Defined.

Lemma register_frame_witness :
  let five : gmap string json := <["username" := JNum 5]> bob_body in
  ∃ p new_user,
    five !! "password" = Some (JStr p)
    ∧ users (register toy_hash st_ana "s2" five).2 = users st_ana ++ [new_user]
    ∧ (User.id new_user ∉ (User.id <$> users st_ana))
    ∧ to_text (dict_get five "username") = Some (User.username new_user)
    ∧ to_text (dict_get five "email") = Some (User.email new_user)
    ∧ is_text (User.username new_user)
    ∧ is_text (User.email new_user)
    ∧ (User.username new_user ∉ (User.username <$> users st_ana))
    ∧ (User.email new_user ∉ (User.email <$> users st_ana))
    ∧ User.password_hash new_user = toy_hash "s2" p.
Proof.
  intros five.
  destruct (register_frame toy_hash st_ana "s2" five) as (_ & _ & _ & Hcreated).
  apply Hcreated. reflexivity.
Defined.

(** ** Registration and login together *)

Section Sessions.
Variable generate_password_hash : string → string → string.
Variable check_password_hash : string → string → bool.


(** X18: [login] answers 200 only when a stored user has the text of the
    submitted username and the submitted password is a string that the
    stored hash of that user verifies; the answer then carries the
    identifier and the stored username of that user. *)
Theorem login_success_sound st (data : gmap string json) body :
  login check_password_hash st data = (body, 200) →
  ∃ user p,
    user ∈ users st
    ∧ to_text (dict_get data "username") = Some (User.username user)
    ∧ data !! "password" = Some (JStr p)
    ∧ check_password_hash (User.password_hash user) p = true
    ∧ body = LoginOk "Login bem-sucedido" (User.id user) (User.username user).
Proof.
  unfold login, user_query_by_username.
  destruct (to_text (dict_get data "username")) as [t|] eqn:Ht; [|done]. simpl.
  destruct (user_by_username st t) as [user|] eqn:Hfind; [|done].
  apply find_Some_elem in Hfind as [Hin Hname]. apply bool_decide_eq_true in Hname.
  unfold dict_get at 1.
  destruct (data !! "password") as [[| | |p]|] eqn:Hpw; try done. simpl.
  destruct (check_password_hash (User.password_hash user) p) eqn:Hcheck; [|done].
  intros [= <-]. exists user, p. by rewrite Hname.
Qed.


End Sessions.


Lemma login_success_sound_witness :
  ∃ user p,
    user ∈ users st_two
    ∧ to_text (dict_get bob_body "username") = Some (User.username user)
    ∧ bob_body !! "password" = Some (JStr p)
    ∧ toy_check (User.password_hash user) p = true
    ∧ LoginOk "Login bem-sucedido" 2 (JStr "bob")
      = LoginOk "Login bem-sucedido" (User.id user) (User.username user).
Proof.
  apply (login_success_sound toy_check st_two bob_body). reflexivity.
Defined.


Lemma login_ok_stable_witness :
  login toy_check
        (run toy_hash toy_check toy_integer st_ana
           [Register "s2" bob_body; AddTask milk_body; DeleteTask 1;
            Register "s2" (<["email" := JStr "ana@y.com"]> ana_body)])
        ana_body
  = (LoginOk "Login bem-sucedido" 1 (JStr "ana"), 200).
Proof.
  apply (login_ok_stable toy_hash toy_check toy_integer st_ana). reflexivity.
Defined.

(** ** More invariants of the reachable stores *)

Lemma owners_exist_grow st st' more :
  users st' = users st ++ more → tasks st' = tasks st →
  owners_exist st → owners_exist st'.
Proof.
  unfold owners_exist. intros Hu Ht Hown. rewrite Hu, Ht.
  eapply Forall_impl; [exact Hown|].
  intros t (uid & Hrow & Hin). exists uid. split; [done|].
  rewrite fmap_app, elem_of_app. by left.
Qed.

Section Ownership.
Variable generate_password_hash : string → string → string.
Variable check_password_hash : string → string → bool.
Variable text_as_integer : string → option Z.

Lemma handle_owners_exist st req :
  owners_exist st →
  owners_exist
    (handle generate_password_hash check_password_hash text_as_integer st req).2.
Proof.
  intros Hown. destruct req as [salt data|data|uid|data|tid data|tid]; simpl;
    try done.
  - destruct (register_cases generate_password_hash st salt data)
      as [(r0 & -> & _)
         | (p & uname & mail & _ & _ & _ & _ & _ & _ & _ & _ & ->)]; [done|].
    by eapply owners_exist_grow.
  - destruct (add_task_cases text_as_integer st data)
      as [(r & -> & _) | (user & row & st' & _ & Huser & _ & Hins & ->)]; [done|].
    apply insert_task_inv in Hins
      as (t & d & dd & p & _ & _ & _ & _ & _ & _ & -> & ->).
    unfold owners_exist in *. simpl. apply Forall_app. split; [done|].
    constructor; [|constructor]. exists (User.id user). split; [done|].
    apply list_elem_of_fmap. eauto.
  - destruct (update_task_cases st tid data)
      as [(r & -> & _) | (task & row & _ & Hget & Hrow & _ & _ & ->)]; [done|].
    unfold owners_exist in *. simpl. apply Forall_fmap.
    destruct (task_get_Some _ _ _ Hget) as [Hin _].
    pose proof (proj1 (Forall_forall _ _) Hown task Hin) as Htask.
    destruct (update_row_id _ _ _ Hrow) as [_ Howner].
    eapply Forall_impl; [exact Hown|]. intros t Ht. simpl.
    case_bool_decide; [|done]. by rewrite Howner.
  - unfold delete_task, task_query_get. destruct (in_int64 tid); [|done].
    destruct (task_get st tid) as [task|]; [|done].
    simpl. unfold owners_exist, remove_task. simpl. by apply Forall_filter_keep.
Qed.

Lemma run_owners_exist reqs st :
  owners_exist st →
  owners_exist
    (run generate_password_hash check_password_hash text_as_integer st reqs).
Proof.
  revert st. induction reqs as [|req reqs IH]; intros st Hown; simpl; [done|].
  apply IH. by apply handle_owners_exist.
Qed.

(** X22: in every store reachable from the empty one, the identifiers of
    the users are pairwise distinct, the identifiers of the tasks are
    pairwise distinct, no username and no email is null, and no title is
    null. *)
Theorem reachable_keys_distinct st :
  reachable generate_password_hash check_password_hash text_as_integer st →
  NoDup (User.id <$> users st)
  ∧ NoDup (Task.id <$> tasks st)
  ∧ (∀ u, u ∈ users st → User.username u ≠ JNull ∧ User.email u ≠ JNull)
  ∧ (∀ t, t ∈ tasks st → Task.title t ≠ JNull).
Proof.
  intros Hr.
  apply reachable_store_ok in Hr as (Hid & _ & _ & Hnn & Htid & Htnn).
  rewrite Forall_forall in Hnn. rewrite Forall_forall in Htnn.
  split; [done|]. split; [done|]. split; [done|].
  intros t Ht. by destruct (Htnn t Ht).
Qed.

(** X23: in every store reachable from the empty one, every task is owned
    by a user that exists, and listing the tasks of that user is answered
    200 with an array that holds the serialization of the task. *)
Theorem reachable_tasks_have_owner st task :
  reachable generate_password_hash check_password_hash text_as_integer st →
  task ∈ tasks st →
  ∃ uid,
    Task.user_id task = JNum uid
    ∧ is_Some (user_get st uid)
    ∧ get_user_tasks st uid = (TaskArray (Task.to_dict <$> tasks_of_user st uid), 200)
    ∧ task ∈ tasks_of_user st uid.
Proof.
  intros Hr Hin.
  pose proof (reachable_store_typed _ _ _ _ Hr) as [Husers _].
  destruct Hr as [reqs <-].
  assert (owners_exist empty_store) as Hempty by constructor.
  pose proof (run_owners_exist reqs empty_store Hempty) as Hown.
  unfold owners_exist in Hown. rewrite Forall_forall in Hown.
  destruct (Hown task Hin) as (uid & Howner & Huid).
  exists uid. split; [done|].
  assert (in_int64 uid = true) as Hrange.
  { apply list_elem_of_fmap in Huid as (u & -> & Hu).
    rewrite Forall_forall in Husers. by destruct (Husers u Hu). }
  assert (is_Some (user_get
            (run generate_password_hash check_password_hash text_as_integer
               empty_store reqs) uid))
    as [user Huser].
  { apply not_eq_None_Some. intros Hnone%user_get_None. by apply Hnone. }
  split; [by exists user|]. split.
  - unfold get_user_tasks, user_query_get. by rewrite Hrange, Huser.
  - unfold tasks_of_user. by apply list_elem_of_filter.
Qed.

End Ownership.

Lemma reachable_keys_distinct_witness :
  NoDup (User.id <$> users st_two)
  ∧ NoDup (Task.id <$> tasks st_two)
  ∧ (∀ u, u ∈ users st_two → User.username u ≠ JNull ∧ User.email u ≠ JNull)
  ∧ (∀ t, t ∈ tasks st_two → Task.title t ≠ JNull).
Proof.
  apply (reachable_keys_distinct toy_hash toy_check toy_integer st_two).
  by exists two_users_requests.
Defined.

Lemma reachable_tasks_have_owner_witness :
  ∃ uid,
    JNum 2 = JNum uid
    ∧ is_Some (user_get st_two uid)
    ∧ get_user_tasks st_two uid
      = (TaskArray (Task.to_dict <$> tasks_of_user st_two uid), 200)
    ∧ Task.mk 2 (JStr "Pay rent") (JStr "") (JStr "2024-06-01") (JStr "high")
        (JBool false) (JNum 2) ∈ tasks_of_user st_two uid.
Proof.
  apply (reachable_tasks_have_owner toy_hash toy_check toy_integer st_two
           (Task.mk 2 (JStr "Pay rent") (JStr "") (JStr "2024-06-01") (JStr "high")
              (JBool false) (JNum 2))).
  - by exists two_users_requests.
  - apply list_elem_of_further, list_elem_of_here.
Defined.
